(** * TubeGuide: the guide-generation pipeline

    A shallow embedding of the two programs of the repository:

    - the server, an Express application: the route [POST /api/process] and
      its helper [extractVideoId];
    - the client, [src/App.tsx]: [handleProcess], which turns the answer of
      the server and the answer of the generative model into a [GuideData],
      and [downloadPdf], which names the exported document.

    JavaScript strings are modelled by [string]: a character stands for one
    code unit.  What the platform supplies (the [URL] constructor,
    [JSON.parse], the conversion of a number to a string) is gathered in the
    record [Platform]; what the network answers (the oEmbed request, the
    caption scraper, the generative model) is an oracle, and the calls the
    server makes to it are recorded in a trace. *)

From Stdlib Require Import List String Ascii ZArith QArith Qround Bool Lia.
From Stdlib Require Import DecimalString DecimalPos DecimalZ.
Import ListNotations.

Local Open Scope string_scope.
Local Open Scope Z_scope.

Set Implicit Arguments.
Set Warnings "-register-all".

(* ===================================================================== *)
(** ** JavaScript strings *)
(* ===================================================================== *)

Module JS.

(** [s.slice(1)]: the string without its first code unit. *)
Definition slice1 (s : string) : string :=
  match s with
  | EmptyString => EmptyString
  | String _ t => t
  end.

(** [s.startsWith(p)]. *)
Definition startsWith (s p : string) : bool := String.prefix p s.

(** [s.includes(p)]: [p] occurs somewhere in [s]. *)
Fixpoint includes (s p : string) : bool :=
  String.prefix p s ||
  match s with
  | EmptyString => false
  | String _ t => includes t p
  end.

(** [s.split(sep)] for a separator of one code unit.  The result is never
    empty: a string without the separator is split into itself. *)
Fixpoint split (sep : ascii) (s : string) : list string :=
  match s with
  | EmptyString => [EmptyString]
  | String c t =>
      if Ascii.eqb c sep then EmptyString :: split sep t
      else match split sep t with
           | [] => [String c EmptyString]
           | w :: ws => String c w :: ws
           end
  end.

(** [xs.join(sep)] on strings. *)
Fixpoint join (sep : string) (xs : list string) : string :=
  match xs with
  | [] => EmptyString
  | [x] => x
  | x :: rest => x ++ sep ++ join sep rest
  end.

(** The first [n] code units of [s]. *)
Fixpoint take (n : nat) (s : string) : string :=
  match n, s with
  | S n', String c t => String c (take n' t)
  | _, _ => EmptyString
  end.

Definition between (c lo hi : ascii) : bool :=
  (nat_of_ascii lo <=? nat_of_ascii c)%nat && (nat_of_ascii c <=? nat_of_ascii hi)%nat.

Definition is_digit (c : ascii) : bool := between c "0" "9".
Definition is_lower (c : ascii) : bool := between c "a" "z".
Definition is_upper (c : ascii) : bool := between c "A" "Z".

(** The class [[a-z0-9]] under the flag [i]: without the flag [u] only the
    ASCII letters have a case counterpart inside the class. *)
Definition is_alnum (c : ascii) : bool := is_lower c || is_upper c || is_digit c.

(** The class [\w]. *)
Definition is_word (c : ascii) : bool := is_alnum c || Ascii.eqb c "_".

(** What [.] matches: everything but a line terminator. *)
Definition is_dot (c : ascii) : bool :=
  negb (Ascii.eqb c "010" || Ascii.eqb c "013").

(* --------------------------------------------------------------------- *)
(** *** Regular expressions with capture groups

    A backtracking matcher in continuation-passing style, with the
    priorities of the language: an alternation tries its left branch first,
    [?] and [*] are greedy, and a group records the text it matched on the
    successful path only. *)

Inductive regex : Type :=
| Eps                             (* the empty pattern *)
| Chr (c : ascii)                 (* a literal code unit *)
| Cls (p : ascii -> bool)         (* a class, or [.] *)
| Seq (r1 r2 : regex)
| Alt (r1 r2 : regex)
| Opt (r : regex)                 (* r? *)
| StarCls (p : ascii -> bool)     (* c* for a class c *)
| Grp (n : nat) (r : regex).      (* the n-th capture group *)

Definition captures := list (nat * string).

Fixpoint capture (n : nat) (caps : captures) : option string :=
  match caps with
  | [] => None
  | (m, s) :: rest => if Nat.eqb m n then Some s else capture n rest
  end.

Section Matcher.
Variable R : Type.

(** Greedy [c*]: take the longest run first, give code units back one at a
    time while the continuation fails. *)
Fixpoint match_star (p : ascii -> bool) (s : string)
         (k : string -> option R) : option R :=
  match s with
  | String c t =>
      if p c then
        match match_star p t k with
        | Some r => Some r
        | None => k s
        end
      else k s
  | EmptyString => k s
  end.

Fixpoint rmatch (r : regex) (s : string) (caps : captures)
         (k : string -> captures -> option R) : option R :=
  match r with
  | Eps => k s caps
  | Chr c =>
      match s with
      | String d t => if Ascii.eqb c d then k t caps else None
      | EmptyString => None
      end
  | Cls p =>
      match s with
      | String d t => if p d then k t caps else None
      | EmptyString => None
      end
  | Seq r1 r2 => rmatch r1 s caps (fun s' caps' => rmatch r2 s' caps' k)
  | Alt r1 r2 =>
      match rmatch r1 s caps k with
      | Some x => Some x
      | None => rmatch r2 s caps k
      end
  | Opt r1 =>
      match rmatch r1 s caps k with
      | Some x => Some x
      | None => k s caps
      end
  | StarCls p => match_star p s (fun s' => k s' caps)
  | Grp n r1 =>
      rmatch r1 s caps
        (fun s' caps' =>
           k s' ((n, take (String.length s - String.length s') s) :: caps'))
  end.
End Matcher.

(** [s.match(r)] for a pattern that starts with [^] and has no flag: the
    captures of the first successful path from the start of [s], or [None]
    for [null]. *)
Definition regex_match (r : regex) (s : string) : option captures :=
  rmatch r s [] (fun _ caps => Some caps).

(** The pattern that matches the code units of [s] literally. *)
Fixpoint lit (s : string) : regex :=
  match s with
  | EmptyString => Eps
  | String c t => Seq (Chr c) (lit t)
  end.

(* --------------------------------------------------------------------- *)
(** *** Values

    The values that [JSON.parse] and a JSON response body can hold.  An
    object is an association list in property order, read through [lookup]
    (the first binding of a name is the property); a number is the rational
    it denotes. *)

Inductive value : Type :=
| JNull
| JBool (b : bool)
| JNum (q : Q)
| JStr (s : string)
| JArr (xs : list value)
| JObj (fields : list (string * value)).

(** The truthiness that [||], [!] and [if] test. *)
Definition truthy (v : value) : bool :=
  match v with
  | JNull => false
  | JBool b => b
  | JNum q => negb (Qnum q =? 0)
  | JStr s => negb (String.eqb s "")
  | JArr _ | JObj _ => true
  end.

Definition truthy_string (s : string) : bool := negb (String.eqb s "").

(** The first binding of [key] in an association list. *)
Fixpoint lookup {A : Type} (key : string) (fields : list (string * A)) : option A :=
  match fields with
  | [] => None
  | (k, v) :: rest => if String.eqb k key then Some v else lookup key rest
  end.

(** [o[key] = v]: the binding of an existing property is replaced where it
    stands, a new property is added last. *)
Fixpoint assign {A : Type} (key : string) (v : A) (fields : list (string * A))
  : list (string * A) :=
  match fields with
  | [] => [(key, v)]
  | (k, w) :: rest =>
      if String.eqb k key then (k, v) :: rest else (k, w) :: assign key v rest
  end.

Inductive access (A : Type) : Type :=
| Throws                      (* a TypeError: the receiver is null *)
| Undefined
| Got (a : A).
Arguments Throws {A}.
Arguments Undefined {A}.

(** [v.name] for a property name that is neither an index nor [length]:
    only an object can have it, and reading it from [null] throws. *)
Definition prop (v : value) (name : string) : access value :=
  match v with
  | JNull => Throws
  | JObj fields =>
      match lookup name fields with
      | Some x => Got x
      | None => Undefined
      end
  | _ => Undefined
  end.

(** The key of the [i]-th element of an array or of a string. *)
Definition index_key (i : nat) : string := NilEmpty.string_of_uint (Nat.to_uint i).

Fixpoint indexed {A : Type} (i : nat) (xs : list A) : list (string * A) :=
  match xs with
  | [] => []
  | x :: rest => (index_key i, x) :: indexed (S i) rest
  end.

Fixpoint code_units (s : string) : list value :=
  match s with
  | EmptyString => []
  | String c t => JStr (String c EmptyString) :: code_units t
  end.

(** The object [{...v}]: a copy of the own enumerable properties of [v]. *)
Definition spread (v : value) : list (string * value) :=
  match v with
  | JObj fields => fields
  | JArr xs => indexed 0 xs
  | JStr s => indexed 0 (code_units s)
  | _ => []
  end.

(** [s.replace(r, by)] for a pattern [r] with the flag [g] that is a class
    [p]: every code unit in the class is replaced by [by]. *)
Fixpoint replace_all (p : ascii -> bool) (by_ : string) (s : string) : string :=
  match s with
  | EmptyString => EmptyString
  | String c t =>
      if p c then by_ ++ replace_all p by_ t else String c (replace_all p by_ t)
  end.

Definition dquote : string := String "034" EmptyString.
Definition newline : string := String "010" EmptyString.

(** A variable bound by destructuring: [None] is [undefined]. *)
Definition field (v : value) (name : string) : option value :=
  match prop v name with
  | Got x => Some x
  | _ => None
  end.

(** [x || d], where [x] was read from a property. *)
Definition or_default (x : access value) (d : value) : value :=
  match x with
  | Got v => if truthy v then v else d
  | _ => d
  end.

(** What [new URL(s)] exposes of a parsed address. *)
Record URL : Type := mkURL {
  hostname : string;
  pathname : string;
  searchParams : list (string * string)
}.

(** The platform: [new URL(s)] ([None] when it throws), [JSON.parse(s)]
    ([None] when it throws), and the string a number is converted to. *)
Record Platform : Type := mkPlatform {
  URL_new : string -> option URL;
  JSON_parse : string -> option value;
  Number_toString : Q -> string
}.

(** What [fetch] followed by [json()] can do: reject, or answer with the
    flag [ok] and a body that parses ([Some]) or not ([None]). *)
Inductive FetchOutcome : Type :=
| FetchRejects
| FetchResponds (ok : bool) (json : option value).

(** The conversion of a value to a string, as a template literal and the
    constructor [Error] perform it; [None] when it throws a TypeError.  An
    object is converted by the inherited [toString], which gives
    ["[object Object]"], unless it has a property [toString] of its own:
    that one is not callable, the inherited [valueOf] returns the object
    itself, and the conversion throws.  An array is converted by [join]:
    its elements are converted in turn, [null] to the empty string. *)
Section ToString.
Variable P : Platform.

Fixpoint ToString (v : value) : option string :=
  match v with
  | JNull => Some "null"
  | JBool true => Some "true"
  | JBool false => Some "false"
  | JNum q => Some (Number_toString P q)
  | JStr s => Some s
  | JArr xs =>
      (fix elements (l : list value) : option string :=
         match l with
         | [] => Some ""
         | x :: rest =>
             match (match x with JNull => Some "" | _ => ToString x end) with
             | None => None
             | Some e =>
                 match rest with
                 | [] => Some e
                 | _ =>
                     match elements rest with
                     | Some r => Some (e ++ "," ++ r)
                     | None => None
                     end
                 end
             end
         end) xs
  | JObj fields =>
      match lookup "toString" fields with
      | Some _ => None
      | None => Some "[object Object]"
      end
  end.

(** The same for a variable that may hold [undefined]. *)
Definition ToString_opt (v : option value) : option string :=
  match v with
  | Some x => ToString x
  | None => Some "undefined"
  end.
End ToString.

(** [Math.floor]. *)
Definition Math_floor (q : Q) : Q := inject_Z (Qfloor q).

End JS.

(* ===================================================================== *)
(** ** The server: [POST /api/process] *)
(* ===================================================================== *)

Module Server.
Import JS.

(** The pattern of the fallback.  Read from left to right it is: the
    anchor [^]; [.*]; group 1, an alternation of group 2 [youtu.be\/],
    group 3 [v\/], group 4 [\/u\/\w\/], group 5 [embed\/] and group 6
    [watch\?]; then [\??], [v?], [=?]; group 7, any number of code units
    other than [#], [&] and [?]; and a last [.*].  The dot of [youtu.be] is
    not escaped: it is the wildcard. *)
Definition regExp : regex :=
  Seq (StarCls is_dot)
 (Seq (Grp 1 (Alt (Grp 2 (Seq (lit "youtu") (Seq (Cls is_dot) (lit "be/"))))
             (Alt (Grp 3 (lit "v/"))
             (Alt (Grp 4 (Seq (lit "/u/") (Seq (Cls is_word) (Chr "/"))))
             (Alt (Grp 5 (lit "embed/"))
                  (Grp 6 (lit "watch?")))))))
 (Seq (Opt (Chr "?"))
 (Seq (Opt (Chr "v"))
 (Seq (Opt (Chr "="))
 (Seq (Grp 7 (StarCls (fun c => negb (Ascii.eqb c "#" || Ascii.eqb c "&" || Ascii.eqb c "?"))))
      (StarCls is_dot)))))).

(** The [catch] branch of [extractVideoId]: the seventh group, when the
    pattern matches and the group has 11 code units.  The group lies on
    every path of the pattern (lemma [regExp_group7] below), so that reading
    its length cannot throw. *)
Definition extractVideoId_fallback (url : string) : option string :=
  match regex_match regExp url with
  | Some caps =>
      match capture 7 caps with
      | Some m => if (String.length m =? 11)%nat then Some m else None
      | None => None
      end
  | None => None
  end.

(** The [try] branch, once [new URL(url)] has succeeded.  [None] stands for
    [null] and [undefined] alike: the caller only tests the result for
    truthiness. *)
Definition extractVideoId_parsed (urlObj : URL) : option string :=
  if String.eqb (hostname urlObj) "youtu.be" then
    Some (slice1 (pathname urlObj))
  else if includes (hostname urlObj) "youtube.com" then
    if startsWith (pathname urlObj) "/shorts/" then
      nth_error (split "/" (pathname urlObj)) 2
    else lookup "v" (searchParams urlObj)
  else None.

Definition extractVideoId (P : Platform) (url : string) : option string :=
  match URL_new P url with
  | Some urlObj => extractVideoId_parsed urlObj
  | None => extractVideoId_fallback url
  end.

(** A caption as the scraper returns it. *)
Record CaptionItem : Type := mkCaption {
  text : string;
  start : Q
}.

(** The body of a request, typed as the client sends it; [None] is an absent
    field. *)
Record Request : Type := mkRequest {
  url : option string;
  manualTranscript : option string
}.

(** The object sent on success. *)
Record VideoInfo : Type := mkVideoInfo {
  title : value;
  author : value;
  thumbnail : value;
  transcript : string;
  videoId : string
}.

Inductive Body : Type :=
| ErrorBody (error : string)
| VideoBody (info : VideoInfo).

Record Response : Type := mkResponse {
  status : Z;
  body : Body
}.

(* --------------------------------------------------------------------- *)
(** *** Effects

    The handler talks to two remote services and to the console.  A program
    is a finite tree of such calls; running it against a [World], which
    answers the calls, yields the result and the trace of the calls made. *)

Inductive Level : Type := Log | Warn | Err.

Inductive Event : Type :=
| EvFetch (address : string)
| EvGetSubtitles (videoID : string) (lang : option string)
| EvConsole (level : Level) (message : string).

Inductive Prog (A : Type) : Type :=
| Ret (a : A)
| Fetch (address : string) (k : FetchOutcome -> Prog A)
| GetSubtitles (videoID : string) (lang : option string)
               (k : option (list CaptionItem) -> Prog A)
| Console (level : Level) (message : string) (k : Prog A).
Arguments Ret {A} a.

Fixpoint bind {A B : Type} (p : Prog A) (f : A -> Prog B) : Prog B :=
  match p with
  | Ret a => f a
  | Fetch u k => Fetch u (fun r => bind (k r) f)
  | GetSubtitles v l k => GetSubtitles v l (fun r => bind (k r) f)
  | Console l m k => Console l m (bind k f)
  end.

Notation "x <- p ;; q" := (bind p (fun x => q))
  (at level 61, p at next level, right associativity).

(** The answers of the outside world.  [getSubtitles] answers [None] when
    the scraper rejects. *)
Record World : Type := mkWorld {
  fetch : string -> FetchOutcome;
  getSubtitles : string -> option string -> option (list CaptionItem)
}.

Fixpoint run {A : Type} (w : World) (p : Prog A) : list Event * A :=
  match p with
  | Ret a => ([], a)
  | Fetch u k =>
      let (tr, a) := run w (k (fetch w u)) in (EvFetch u :: tr, a)
  | GetSubtitles v l k =>
      let (tr, a) := run w (k (getSubtitles w v l)) in (EvGetSubtitles v l :: tr, a)
  | Console l m k =>
      let (tr, a) := run w k in (EvConsole l m :: tr, a)
  end.

Definition is_caption_fetch (e : Event) : bool :=
  match e with EvGetSubtitles _ _ => true | _ => false end.

(** The calls to the caption scraper in a trace, and their number. *)
Definition caption_calls (tr : list Event) : list Event :=
  filter is_caption_fetch tr.

Definition caption_fetches (tr : list Event) : nat :=
  List.length (caption_calls tr).

(* --------------------------------------------------------------------- *)
(** *** The handler *)

Section Handler.
Variable P : Platform.

(** Step 1 of the handler, "Get Video Info via OEmbed". *)
Record Meta : Type := mkMeta {
  m_title : value;
  m_author : value;
  m_thumbnail : value
}.

Definition default_meta (videoId : string) : Meta :=
  mkMeta (JStr "YouTube Video") (JStr "Unknown Creator")
         (JStr ("https://img.youtube.com/vi/" ++ videoId ++ "/maxresdefault.jpg")).

Definition oembedUrl (videoId : string) : string :=
  "https://www.youtube.com/oembed?url=https://www.youtube.com/watch?v="
    ++ videoId ++ "&format=json".

Definition oembed_warning : string := "OEmbed fetch failed, using fallbacks:".

Definition getVideoInfo (videoId : string) : Prog Meta :=
  let d := default_meta videoId in
  Fetch (oembedUrl videoId) (fun r =>
    match r with
    | FetchRejects => Console Warn oembed_warning (Ret d)
    | FetchResponds false _ => Ret d
    | FetchResponds true None => Console Warn oembed_warning (Ret d)
    | FetchResponds true (Some metaData) =>
        match prop metaData "title" with
        | Throws => Console Warn oembed_warning (Ret d)
        | t =>
            Ret (mkMeta (or_default t (m_title d))
                        (or_default (prop metaData "author_name") (m_author d))
                        (or_default (prop metaData "thumbnail_url") (m_thumbnail d)))
        end
    end).

(** [items.map(item => `[${Math.floor(item.start)}s] ${item.text}`).join("\n")]. *)
Definition transcript_line (item : CaptionItem) : string :=
  "[" ++ Number_toString P (Math_floor (start item)) ++ "s] " ++ text item.

Definition format_transcript (items : list CaptionItem) : string :=
  join newline (map transcript_line items).

Definition manual_mode_message : string :=
  "Could not fetch transcript for this video. Please try 'Manual Script' mode and paste the transcript yourself.".

(** The [else] branch of step 2: the scraper is asked for the English
    captions and, when that fails, for the captions of the default
    language.  [inl] is the message of the error thrown, [inr] the
    transcript. *)
Definition scrape (videoId : string) : Prog (string + string) :=
  Console Log ("Attempting to fetch transcript for " ++ videoId ++ "...")
 (GetSubtitles videoId (Some "en") (fun r =>
    match r with
    | Some transcriptItems =>
        Console Log "Transcript fetched successfully via scraper."
          (Ret (inr (format_transcript transcriptItems)))
    | None =>
        Console Warn "Primary transcript fetch failed, trying default language..."
       (GetSubtitles videoId None (fun r2 =>
          match r2 with
          | Some transcriptItems =>
              Console Log "Transcript fetched successfully via scraper (default lang)."
                (Ret (inr (format_transcript transcriptItems)))
          | None =>
              Console Err "All scraper attempts failed."
                (Ret (inl manual_mode_message))
          end))
    end)).

(** Step 2, "Get Transcript". *)
Definition getTranscript (videoId : string) (manual : option string)
  : Prog (string + string) :=
  match manual with
  | Some m =>
      if truthy_string m then
        Console Log "Using manual transcript provided by user." (Ret (inr m))
      else scrape videoId
  | None => scrape videoId
  end.

(** The body of the outer [try], after the identifier has been resolved. *)
Definition process_video (videoId : string) (manual : option string)
  : Prog (string + VideoInfo) :=
  meta <- getVideoInfo videoId ;;
  t <- getTranscript videoId manual ;;
  match t with
  | inl message => Ret (inl message)
  | inr fullTranscript =>
      Ret (inr (mkVideoInfo (m_title meta) (m_author meta) (m_thumbnail meta)
                            fullTranscript videoId))
  end.

(** The outer [catch]: [error.message || "Failed to process video"]. *)
Definition on_error (message : string) : Prog Response :=
  Console Err "Processing error:"
    (Ret (mkResponse 500
            (ErrorBody (if truthy_string message then message
                        else "Failed to process video")))).

(** How the outer [try] ends: [res.json] of the object built, or the
    [catch]. *)
Definition respond (r : string + VideoInfo) : Prog Response :=
  match r with
  | inl message => on_error message
  | inr info => Ret (mkResponse 200 (VideoBody info))
  end.

(** The route [POST /api/process]. *)
Definition api_process (req : Request) : Prog Response :=
  match url req with
  | None => Ret (mkResponse 400 (ErrorBody "URL is required"))
  | Some u =>
      if negb (truthy_string u) then
        Ret (mkResponse 400 (ErrorBody "URL is required"))
      else
        match extractVideoId P u with
        | None => Ret (mkResponse 400 (ErrorBody "Invalid YouTube URL"))
        | Some id =>
            if negb (truthy_string id) then
              Ret (mkResponse 400 (ErrorBody "Invalid YouTube URL"))
            else
              r <- process_video id (manualTranscript req) ;; respond r
        end
  end.

End Handler.

End Server.

(* ===================================================================== *)
(** ** The client: [handleProcess] and [downloadPdf] *)
(* ===================================================================== *)

Module App.
Import JS.

(** A step of the guide is the object the model returned, with the two
    media properties set. *)
Definition Step : Type := list (string * value).

Record GuideData : Type := mkGuide {
  title : option value;
  author : option value;
  thumbnail : option value;
  steps : list Step;
  videoId : option value
}.

(** The message of a caught error: a text chosen by the program, or the
    text of an error raised by the platform or a library at [origin]. *)
Inductive message : Type :=
| Text (s : string)
| Native (origin : string).

(** The state of the component. *)
Record State : Type := mkState {
  loading : bool;
  error : option message;
  guide : option GuideData;
  progress : Z;
  status : string
}.

Definition initial : State := mkState false None None 0 "".

(** What the client of the generative model does (its construction and the
    call [generateContent] taken together): throw, or answer with a text
    that may be absent. *)
Inductive AIOutcome : Type :=
| AIThrows
| AIResponds (text : option string).

(** The two services the client calls: the server's route, which receives
    the body of the request, and the generative model, which receives the
    prompt. *)
Record Remote : Type := mkRemote {
  api_process : Server.Request -> FetchOutcome;
  generateContent : string -> AIOutcome
}.

(* --------------------------------------------------------------------- *)
(** *** State and exceptions *)

Definition M (A : Type) : Type := State -> State * (message + A).

Definition ret {A : Type} (a : A) : M A := fun st => (st, inr a).

Definition throw {A : Type} (m : message) : M A := fun st => (st, inl m).

Definition bind {A B : Type} (c : M A) (f : A -> M B) : M B :=
  fun st =>
    match c st with
    | (st', inr a) => f a st'
    | (st', inl m) => (st', inl m)
    end.

(** [try { c } catch (err) { h err }]. *)
Definition try_catch {A : Type} (c : M A) (h : message -> M A) : M A :=
  fun st =>
    match c st with
    | (st', inl m) => h m st'
    | r => r
    end.

Notation "x <- c ;; k" := (bind c (fun x => k))
  (at level 61, c at next level, right associativity).
Notation "c ;; k" := (bind c (fun _ => k))
  (at level 61, right associativity).

Definition setLoading (b : bool) : M unit :=
  fun st => (mkState b (error st) (guide st) (progress st) (status st), inr tt).
Definition setError (e : option message) : M unit :=
  fun st => (mkState (loading st) e (guide st) (progress st) (status st), inr tt).
Definition setGuide (g : option GuideData) : M unit :=
  fun st => (mkState (loading st) (error st) g (progress st) (status st), inr tt).
Definition setProgress (p : Z) : M unit :=
  fun st => (mkState (loading st) (error st) (guide st) p (status st), inr tt).
Definition setStatus (s : string) : M unit :=
  fun st => (mkState (loading st) (error st) (guide st) (progress st) s, inr tt).

(** A value that is [None] when the computation throws. *)
Definition lift {A : Type} (origin : string) (x : option A) : M A :=
  match x with
  | Some a => ret a
  | None => throw (Native origin)
  end.

Section Client.
Variable P : Platform.
Variable R : Remote.

(** The body sent to the server:
    [{url, manualTranscript: isManual ? manualScript : undefined}]. *)
Definition request (url : string) (isManual : bool) (manualScript : string)
  : Server.Request :=
  Server.mkRequest (Some url) (if isManual then Some manualScript else None).

(** The [contents] of the request to the model, a template literal that
    holds [${transcript}]; [None] when the conversion of [transcript]
    throws. *)
Definition prompt (transcript : option value) : option string :=
  match ToString_opt P transcript with
  | None => None
  | Some t =>
      Some ("Based on the following video transcript/summary, create a comprehensive step-by-step tutorial guide."
            ++ newline ++ "        "
            ++ newline ++ "        For each step, provide:"
            ++ newline ++ "        1. A concise, bold title."
            ++ newline ++ "        2. A detailed, helpful description (Markdown allowed)."
            ++ newline ++ "        3. A numerical timestamp in seconds (integer)."
            ++ newline
            ++ newline ++ "        Source Content:"
            ++ newline ++ "        " ++ t
            ++ newline ++ "        ")
  end.

(** The text parsed when the model's answer has none. *)
Definition empty_guide_json : string :=
  "{" ++ dquote ++ "steps" ++ dquote ++ ":[]}".

Definition parse_error : string := "Failed to parse AI response.".

(** [aiResponse.text || empty_guide_json]. *)
Definition text_or_default (text : option string) : string :=
  match text with
  | Some t => if truthy_string t then t else empty_guide_json
  | None => empty_guide_json
  end.

(** The callback of [result.steps.map]:
    [{...step, imageUrl: `https://img.youtube.com/vi/${videoId}/hqdefault.jpg`,
      videoUrl: `https://www.youtube.com/watch?v=${videoId}&t=${step.timestamp}s`}].
    [None] when it throws: when [videoId] cannot be converted to a string,
    when [step] is [null] (reading [step.timestamp] throws), or when the
    timestamp cannot be converted. *)
Definition enrich (videoId : option value) (step : value) : option Step :=
  match ToString_opt P videoId with
  | None => None
  | Some id =>
      match prop step "timestamp" with
      | Throws => None
      | _ =>
          match ToString_opt P (field step "timestamp") with
          | None => None
          | Some t =>
              Some (assign "videoUrl"
                      (JStr ("https://www.youtube.com/watch?v=" ++ id ++ "&t=" ++ t ++ "s"))
                   (assign "imageUrl"
                      (JStr ("https://img.youtube.com/vi/" ++ id ++ "/hqdefault.jpg"))
                      (spread step)))
          end
      end
  end.

Fixpoint enrich_all (videoId : option value) (xs : list value) : option (list Step) :=
  match xs with
  | [] => Some []
  | x :: rest =>
      match enrich videoId x with
      | None => None
      | Some y =>
          match enrich_all videoId rest with
          | None => None
          | Some ys => Some (y :: ys)
          end
      end
  end.

(** [result.steps.map(...)]: [None] when [result] is [null], when
    [result.steps] is not an array, or when the callback throws. *)
Definition stepsWithImages (videoId : option value) (result : value)
  : option (list Step) :=
  match prop result "steps" with
  | Got (JArr xs) => enrich_all videoId xs
  | _ => None
  end.

(** The [try] block of [handleProcess]. *)
Definition generate (url : string) (isManual : bool) (manualScript : string)
  : M unit :=
  match api_process R (request url isManual manualScript) with
  | FetchRejects => throw (Native "fetch")
  | FetchResponds ok json =>
      data <- lift "response.json" json ;;
      if negb ok then
        match prop data "error" with
        | Throws => throw (Native "data.error")
        | e =>
            (* new Error(data.error || "Failed to process video") *)
            match ToString P (or_default e (JStr "Failed to process video")) with
            | Some message => throw (Text message)
            | None => throw (Native "new Error")
            end
        end
      else
        match data with
        | JNull => throw (Native "destructuring")
        | _ =>
            let transcript := field data "transcript" in
            let videoId := field data "videoId" in
            setProgress 50 ;;
            setStatus "AI is generating your guide steps..." ;;
            contents <- lift "template literal" (prompt transcript) ;;
            match generateContent R contents with
            | AIThrows => throw (Native "generateContent")
            | AIResponds text =>
                result <- match JSON_parse P (text_or_default text) with
                          | Some r => ret r
                          | None => throw (Text parse_error)
                          end ;;
                steps <- lift "result.steps.map" (stepsWithImages videoId result) ;;
                setProgress 100 ;;
                setStatus "Guide generated!" ;;
                (* the timer of 500 ms *)
                setGuide (Some (mkGuide (field data "title") (field data "author")
                                        (field data "thumbnail") steps videoId)) ;;
                setLoading false
            end
        end
  end.

(** [handleProcess], run until its timer has fired. *)
Definition handleProcess (url : string) (isManual : bool) (manualScript : string)
           (st : State) : State :=
  if negb (truthy_string url) then st
  else
    fst ((setLoading true ;;
          setError None ;;
          setGuide None ;;
          setProgress 10 ;;
          setStatus "Analyzing video content..." ;;
          try_catch (generate url isManual manualScript)
                    (fun err => setError (Some err) ;; setLoading false)) st).
End Client.

(* --------------------------------------------------------------------- *)
(** *** [downloadPdf] *)

(** [title.replace(/[^a-z0-9]/gi, "_")] followed by ["_Guide.pdf"]. *)
Definition pdf_name (title : string) : string :=
  replace_all (fun c => negb (is_alnum c)) "_" title ++ "_Guide.pdf".

(** What [downloadPdf] hands to the document library: the page size and the
    name under which the document is saved. *)
Record Document : Type := mkDocument {
  page : Q * Q;
  name : string
}.

Inductive Download : Type :=
| NotStarted                  (* the guard returned *)
| DownloadThrows
| Saved (d : Document).

(** [mounted] tells whether [guideRef.current] is set; [canvas] is the size
    of the picture taken of the guide, [None] when taking it fails. *)
Definition downloadPdf (mounted : bool) (g : option GuideData) (canvas : option (Q * Q))
  : Download :=
  match mounted, g with
  | true, Some g' =>
      match canvas with
      | None => DownloadThrows
      | Some (width, height) =>
          match title g' with
          | Some (JStr t) => Saved (mkDocument (width / 2, height / 2)%Q (pdf_name t))
          | _ => DownloadThrows
          end
      end
  | _, _ => NotStarted
  end.

End App.

(* ===================================================================== *)
(** ** The whole pipeline *)
(* ===================================================================== *)

Module Pipeline.
Import JS.

(** The body of a response of the server, as it travels to the client. *)
Definition to_json (b : Server.Body) : value :=
  match b with
  | Server.ErrorBody e => JObj [("error", JStr e)]
  | Server.VideoBody i =>
      JObj [("title", Server.title i);
            ("author", Server.author i);
            ("thumbnail", Server.thumbnail i);
            ("transcript", JStr (Server.transcript i));
            ("videoId", JStr (Server.videoId i))]
  end.

(** [response.ok]: the status lies between 200 and 299. *)
Definition ok (r : Server.Response) : bool :=
  (200 <=? Server.status r) && (Server.status r <=? 299).

(** What the client's [fetch] observes of a response. *)
Definition observe (r : Server.Response) : FetchOutcome :=
  FetchResponds (ok r) (Some (to_json (Server.body r))).

(** The client connected to the server, which runs in the world [w]; [ai]
    is the generative model. *)
Definition remote (P : Platform) (w : Server.World) (ai : string -> App.AIOutcome)
  : App.Remote :=
  App.mkRemote (fun req => observe (snd (Server.run w (Server.api_process P req)))) ai.

End Pipeline.

(* ===================================================================== *)
(** ** A platform for the examples

    A small, conservative instance of [Platform], used to run the programs
    on concrete inputs.  Its [URL_new] reads addresses of the shape
    [http(s)://host/path?query#fragment] written with lower-case letters and
    dots in the host, and letters, digits, [_], [-] and [/] in the path (and
    [=], [&] in the query); its [JSON_parse] reads JSON texts without escape
    sequences and with integer numbers only.  Both answer [None] on
    everything else, which is what the platform does on the inputs used
    below; the general theorems hold for every platform. *)
(* ===================================================================== *)

Module Example.
Import JS.

Fixpoint drop (n : nat) (s : string) : string :=
  match n, s with
  | S n', String _ t => drop n' t
  | _, _ => s
  end.

(** The longest prefix of [s] whose code units satisfy [p], and the rest. *)
Fixpoint span (p : ascii -> bool) (s : string) : string * string :=
  match s with
  | String c t =>
      if p c then let (a, b) := span p t in (String c a, b) else (EmptyString, s)
  | EmptyString => (EmptyString, EmptyString)
  end.

Fixpoint all (p : ascii -> bool) (s : string) : bool :=
  match s with
  | EmptyString => true
  | String c t => p c && all p t
  end.

Definition one_of (set : string) (c : ascii) : bool :=
  existsb (Ascii.eqb c) (list_ascii_of_string set).

(* --------------------------------------------------------------------- *)
(** *** Addresses *)

Definition host_char (c : ascii) : bool := is_lower c || Ascii.eqb c ".".
Definition path_char (c : ascii) : bool := is_alnum c || one_of "_-/" c.
Definition query_char (c : ascii) : bool := is_alnum c || one_of "_-=&" c.

(** [name=value]: the pair is cut at the first [=]. *)
Definition parameter (piece : string) : string * string :=
  let (n, rest) := span (fun c => negb (Ascii.eqb c "=")) piece in (n, slice1 rest).

Definition parameters (query : string) : list (string * string) :=
  map parameter (filter truthy_string (split "&" query)).

Definition after_scheme (s : string) : option string :=
  if String.prefix "https://" s then Some (drop 8 s)
  else if String.prefix "http://" s then Some (drop 7 s)
  else None.

Definition url_new (s : string) : option URL :=
  match after_scheme s with
  | None => None
  | Some rest =>
      let (host, rest1) := span (fun c => negb (one_of "/?#" c)) rest in
      let (path, rest2) := span (fun c => negb (one_of "?#" c)) rest1 in
      let (query, _) := span (fun c => negb (Ascii.eqb c "#")) (slice1 rest2) in
      let query := if String.prefix "?" rest2 then query else "" in
      if truthy_string host && all host_char host && all path_char path
         && all query_char query
      then Some (mkURL host (if truthy_string path then path else "/")
                       (parameters query))
      else None
  end.

(* --------------------------------------------------------------------- *)
(** *** Numbers *)

Definition digits_of (z : Z) : string := NilZero.string_of_int (Z.to_int z).

(** An integer is written in decimal (as the platform does below 2^53);
    another number is written as a fraction, on which no example depends. *)
Definition number_toString (q : Q) : string :=
  if (Qnum q mod Z.pos (Qden q) =? 0)
  then digits_of (Qnum q / Z.pos (Qden q))
  else digits_of (Qnum q) ++ "/" ++ digits_of (Z.pos (Qden q)).

(* --------------------------------------------------------------------- *)
(** *** JSON texts *)

Definition is_space (c : ascii) : bool :=
  Ascii.eqb c " " || Ascii.eqb c "009" || Ascii.eqb c "010" || Ascii.eqb c "013".

Fixpoint skip_ws (s : string) : string :=
  match s with
  | String c t => if is_space c then skip_ws t else s
  | EmptyString => s
  end.

Definition plain_char (c : ascii) : bool :=
  negb (Ascii.eqb c "034" || Ascii.eqb c "\") && (32 <=? nat_of_ascii c)%nat.

(** A string literal without escapes, after its opening quote. *)
Definition string_literal (s : string) : option (string * string) :=
  let (body, rest) := span plain_char s in
  match rest with
  | String q rest' => if Ascii.eqb q "034" then Some (body, rest') else None
  | EmptyString => None
  end.

Fixpoint decimal (acc : Z) (s : string) : Z :=
  match s with
  | String c t => decimal (10 * acc + (Z.of_nat (nat_of_ascii c) - 48)) t
  | EmptyString => acc
  end.

(** An integer literal: a sign, then [0] or digits that do not start with
    [0]; a fraction or an exponent is not read. *)
Definition integer_literal (s : string) : option (value * string) :=
  let (neg, s1) :=
    match s with
    | String c t => if Ascii.eqb c "-" then (true, t) else (false, s)
    | EmptyString => (false, s)
    end in
  let (ds, rest) := span is_digit s1 in
  let leading_zero := String.prefix "0" ds && negb (String.eqb ds "0") in
  let continues :=
    match rest with
    | String c _ => one_of ".eE" c
    | EmptyString => false
    end in
  if truthy_string ds && negb leading_zero && negb continues
  then Some (JNum (inject_Z (if neg then - decimal 0 ds else decimal 0 ds)), rest)
  else None.

Fixpoint parse_value (fuel : nat) (s : string) {struct fuel} : option (value * string) :=
  match fuel with
  | O => None
  | S f =>
      let s := skip_ws s in
      if String.prefix "null" s then Some (JNull, drop 4 s)
      else if String.prefix "true" s then Some (JBool true, drop 4 s)
      else if String.prefix "false" s then Some (JBool false, drop 5 s)
      else
        match s with
        | String c t =>
            if Ascii.eqb c "034" then
              match string_literal t with
              | Some (x, rest) => Some (JStr x, rest)
              | None => None
              end
            else if Ascii.eqb c "[" then
              match skip_ws t with
              | String "]" rest => Some (JArr [], rest)
              | _ =>
                  match parse_elements f t with
                  | Some (xs, rest) => Some (JArr xs, rest)
                  | None => None
                  end
              end
            else if Ascii.eqb c "{" then
              match skip_ws t with
              | String "}" rest => Some (JObj [], rest)
              | _ =>
                  match parse_members f [] t with
                  | Some (fields, rest) => Some (JObj fields, rest)
                  | None => None
                  end
              end
            else integer_literal s
        | EmptyString => None
        end
  end

(** The elements of an array after its first bracket, up to the closing
    bracket. *)
with parse_elements (fuel : nat) (s : string) {struct fuel}
  : option (list value * string) :=
  match fuel with
  | O => None
  | S f =>
      match parse_value f s with
      | Some (x, rest) =>
          match skip_ws rest with
          | String "]" rest' => Some ([x], rest')
          | String "," rest' =>
              match parse_elements f rest' with
              | Some (xs, rest'') => Some (x :: xs, rest'')
              | None => None
              end
          | _ => None
          end
      | None => None
      end
  end

(** The members of an object; a name met twice keeps its first place and
    takes its last value. *)
with parse_members (fuel : nat) (acc : list (string * value)) (s : string) {struct fuel}
  : option (list (string * value) * string) :=
  match fuel with
  | O => None
  | S f =>
      match skip_ws s with
      | String c t =>
          if Ascii.eqb c "034" then
            match string_literal t with
            | Some (key, rest) =>
                match skip_ws rest with
                | String ":" rest1 =>
                    match parse_value f rest1 with
                    | Some (v, rest2) =>
                        let acc' := assign key v acc in
                        match skip_ws rest2 with
                        | String "}" rest3 => Some (acc', rest3)
                        | String "," rest3 => parse_members f acc' rest3
                        | _ => None
                        end
                    | None => None
                    end
                | _ => None
                end
            | None => None
            end
          else None
      | EmptyString => None
      end
  end.

Definition json_parse (s : string) : option value :=
  match parse_value (S (2 * String.length s)) s with
  | Some (v, rest) => if truthy_string (skip_ws rest) then None else Some v
  | None => None
  end.

Definition platform : Platform := mkPlatform url_new json_parse number_toString.

End Example.

(** Worlds and models for the examples. *)
Module Scenario.
Import JS.

Definition captions : list Server.CaptionItem :=
  [Server.mkCaption "Intro" (1 # 2); Server.mkCaption "Step one" (61 # 2)].

(** Nothing answers: the oEmbed request is rejected and so are both caption
    requests. *)
Definition offline : Server.World :=
  Server.mkWorld (fun _ => FetchRejects) (fun _ _ => None).

(** The oEmbed service answers with an error status; only the captions of
    the default language exist. *)
Definition default_language_only : Server.World :=
  Server.mkWorld (fun _ => FetchResponds false None)
                 (fun _ lang => match lang with
                                | Some _ => None
                                | None => Some captions
                                end).

(** The oEmbed request is rejected; the English captions exist. *)
Definition english : Server.World :=
  Server.mkWorld (fun _ => FetchRejects) (fun _ _ => Some captions).

Definition q (s : string) : string := dquote ++ s ++ dquote.

(** A model that answers with one step, which already carries an
    [imageUrl]. *)
Definition one_step_json : string :=
  "{" ++ q "steps" ++ ":[{" ++ q "title" ++ ":" ++ q "Intro" ++ ","
      ++ q "imageUrl" ++ ":" ++ q "http://example.org/x.png" ++ ","
      ++ q "description" ++ ":" ++ q "..." ++ ","
      ++ q "timestamp" ++ ":0}]}".

Definition one_step (_ : string) : App.AIOutcome := App.AIResponds (Some one_step_json).

(** A model that answers with two steps, the second at 95 seconds; the
    first already carries a [videoUrl]. *)
Definition two_steps_json : string :=
  "{" ++ q "steps" ++ ":[{" ++ q "title" ++ ":" ++ q "Intro" ++ ","
      ++ q "description" ++ ":" ++ q "..." ++ ","
      ++ q "timestamp" ++ ":0" ++ ","
      ++ q "videoUrl" ++ ":" ++ q "http://example.org/v" ++ "},{"
      ++ q "title" ++ ":" ++ q "Step one" ++ ","
      ++ q "description" ++ ":" ++ q "..." ++ ","
      ++ q "timestamp" ++ ":95}]}".

Definition two_steps (_ : string) : App.AIOutcome := App.AIResponds (Some two_steps_json).

(** A model whose answer is not JSON, one whose answer is the empty text and
    one whose answer has no text. *)
Definition garbled (_ : string) : App.AIOutcome := App.AIResponds (Some "Sorry, I cannot help with that.").
Definition silent (_ : string) : App.AIOutcome := App.AIResponds (Some "").
Definition absent (_ : string) : App.AIOutcome := App.AIResponds None.

End Scenario.

(* ===================================================================== *)
(** ** The words of the specification *)
(* ===================================================================== *)

Module Spec.
Import JS.

(** [s] without the code units outside the class [p]. *)
Fixpoint strip (p : ascii -> bool) (s : string) : string :=
  match s with
  | EmptyString => EmptyString
  | String c t => if p c then String c (strip p t) else strip p t
  end.

(** The file name as the specification words it: the title stripped of its
    non-alphanumeric characters, then the suffix. *)
Definition stripped_name (title : string) : string :=
  strip is_alnum title ++ "_Guide.pdf".

(** Truncation of a number to an integer: rounding towards zero. *)
Definition truncate (x : Q) : Z := Z.quot (Qnum x) (Z.pos (Qden x)).

(** The line ["[Ns] text"] of a caption, [N] being the truncated offset. *)
Definition annotated_line (P : Platform) (item : Server.CaptionItem) : string :=
  "[" ++ Number_toString P (inject_Z (truncate (Server.start item))) ++ "s] "
      ++ Server.text item.

(** The manual transcript is provided and not empty. *)
Definition provided (manual : option string) : bool :=
  match manual with
  | Some m => truthy_string m
  | None => false
  end.

(** The URL of the request is missing. *)
Definition url_missing (req : Server.Request) : bool :=
  match Server.url req with
  | Some u => negb (truthy_string u)
  | None => true
  end.

(** The identifier the handler works with, when there is one. *)
Definition resolved (P : Platform) (req : Server.Request) : option string :=
  match Server.url req with
  | Some u =>
      if truthy_string u then
        match Server.extractVideoId P u with
        | Some id => if truthy_string id then Some id else None
        | None => None
        end
      else None
  | None => None
  end.

(** The metadata request failed: a transport error, a status that is not a
    success, or a body that cannot be read as an object. *)
Definition metadata_failed (o : FetchOutcome) : bool :=
  match o with
  | FetchRejects => true
  | FetchResponds false _ => true
  | FetchResponds true None => true
  | FetchResponds true (Some JNull) => true
  | FetchResponds true (Some _) => false
  end.

(** A step as the schema of the request asks for it: an object with a
    [title] and a [description] that are strings and a [timestamp] that is
    a number. *)
Definition well_formed_step (v : value) : bool :=
  match v with
  | JObj fields =>
      match lookup "title" fields, lookup "description" fields, lookup "timestamp" fields with
      | Some (JStr _), Some (JStr _), Some (JNum _) => true
      | _, _, _ => false
      end
  | _ => false
  end.

End Spec.

(* ===================================================================== *)
(** ** The client: what is rendered *)
(* ===================================================================== *)

Module Render.
Import JS.

(** [s.padStart(n, c)] for a filler [c] of one code unit. *)
Definition padStart (n : nat) (c : ascii) (s : string) : string :=
  string_of_list_ascii (repeat c (n - String.length s)) ++ s.

(** [a % b] on numbers: the remainder has the sign of [a]. *)
Definition remainder (a b : Q) : Q :=
  (a - b * inject_Z (Spec.truncate (a / b)))%Q.

(** The time shown beside a step whose [timestamp] is a number:
    [{Math.floor(step.timestamp / 60)}:{(step.timestamp % 60).toString().padStart(2, '0')}]. *)
Definition time_badge (P : Platform) (timestamp : Q) : string :=
  Number_toString P (Math_floor (timestamp / 60)%Q) ++ ":"
    ++ padStart 2 "0" (Number_toString P (remainder timestamp 60)).

(** The fields of the form. *)
Record Form : Type := mkForm {
  url : string;
  manualScript : string;
  isManual : bool
}.

(** [disabled] of the submit button that is rendered: [!url] in the
    automatic mode, [!url || !manualScript] in the manual mode. *)
Definition submit_disabled (f : Form) : bool :=
  if isManual f then negb (truthy_string (url f)) || negb (truthy_string (manualScript f))
  else negb (truthy_string (url f)).

(** [onSubmit]: [handleProcess] reads the fields of the form. *)
Definition submit (P : Platform) (R : App.Remote) (f : Form) (st : App.State) : App.State :=
  App.handleProcess P R (url f) (isManual f) (manualScript f) st.

(** The button "Start New":
    [setGuide(null); setUrl(""); setManualScript("")]. *)
Definition startNew (f : Form) (st : App.State) : Form * App.State :=
  (mkForm "" "" (isManual f),
   App.mkState (App.loading st) (App.error st) None (App.progress st) (App.status st)).

Definition has_guide (st : App.State) : bool :=
  match App.guide st with
  | Some _ => true
  | None => false
  end.

(** The truthiness of the state [error], a string or [null]. *)
Definition has_error (st : App.State) : bool :=
  match App.error st with
  | Some (App.Text s) => truthy_string s
  | Some (App.Native _) => true
  | None => false
  end.

(** The blocks of the page, each with the condition that guards it: the
    landing form ([!guide && !loading]), inside it the text of the error
    ([error && ...]), the progress view ([loading]), the guide and the
    button "Start New" ([guide]). *)
Record Page : Type := mkPage {
  landing : bool;
  error_text : bool;
  progress_view : bool;
  guide_view : bool;
  start_new_button : bool
}.

Definition render (st : App.State) : Page :=
  let landing := negb (has_guide st) && negb (App.loading st) in
  mkPage landing
         (landing && has_error st)
         (App.loading st)
         (has_guide st)
         (has_guide st).

End Render.

(* ===================================================================== *)
(** ** Notions used in the statements *)
(* ===================================================================== *)

Module Notions.
Import JS.

(** [sub] occurs in [s]. *)
Definition occurs (sub s : string) : Prop :=
  exists before after : string, s = before ++ sub ++ after.

(** Every code unit of [s] satisfies [p]. *)
Fixpoint every (p : ascii -> bool) (s : string) : bool :=
  match s with
  | EmptyString => true
  | String c t => p c && every p t
  end.

(** The decimal writing of an integer, and its reading. *)
Definition decimal_of (z : Z) : string := NilZero.string_of_int (Z.to_int z).

Definition read_decimal (s : string) : option Z :=
  option_map Z.of_int (NilZero.int_of_string s).

(** The platform writes a number that is an integer below 2^53 in absolute
    value in decimal. *)
Definition writes_integers (P : Platform) : Prop :=
  forall (x : Q) (n : Z),
    (x == inject_Z n)%Q -> - 2 ^ 53 < n < 2 ^ 53 ->
    Number_toString P x = decimal_of n.

(** The requests for metadata in a trace. *)
Definition is_fetch (e : Server.Event) : bool :=
  match e with Server.EvFetch _ => true | _ => false end.

Definition fetch_calls (tr : list Server.Event) : list Server.Event :=
  filter is_fetch tr.

(** The code units a file name made by [downloadPdf] can hold. *)
Definition name_char (c : ascii) : bool :=
  is_alnum c || Ascii.eqb c "_" || Ascii.eqb c ".".

(** The three code units the seventh group of the fallback pattern stops
    at. *)
Definition delimiter (c : ascii) : bool :=
  Ascii.eqb c "#" || Ascii.eqb c "&" || Ascii.eqb c "?".

End Notions.

(* ===================================================================== *)
(** * Properties *)
(* ===================================================================== *)

Import JS.
Unset Implicit Arguments.

(* --------------------------------------------------------------------- *)
(** ** Running programs *)

Lemma run_bind (A B : Type) (w : Server.World) (p : Server.Prog A)
      (f : A -> Server.Prog B) :
  Server.run w (Server.bind p f) =
  ((fst (Server.run w p) ++ fst (Server.run w (f (snd (Server.run w p)))))%list,
   snd (Server.run w (f (snd (Server.run w p))))).
Proof.
  induction p as [a | u k IH | v l k IH | l m k IH]; simpl.
  - destruct (Server.run w (f a)); reflexivity.
  - rewrite IH. destruct (Server.run w (k (Server.fetch w u))); reflexivity.
  - rewrite IH. destruct (Server.run w (k (Server.getSubtitles w v l))); reflexivity.
  - rewrite IH. destruct (Server.run w k); reflexivity.
Qed.

Lemma caption_calls_app (t1 t2 : list Server.Event) :
  Server.caption_calls (t1 ++ t2)%list =
  (Server.caption_calls t1 ++ Server.caption_calls t2)%list.
Proof. apply filter_app. Qed.

(* --------------------------------------------------------------------- *)
(** ** The resolver *)

(** A successful match extends the captures it started from. *)
Lemma match_star_inv (R : Type) (p : ascii -> bool) (s : string)
      (k : string -> option R) (x : R) :
  match_star p s k = Some x -> exists s', k s' = Some x.
Proof.
  induction s as [| c t IH]; simpl; intros H.
  - eauto.
  - destruct (p c); [| eauto].
    destruct (match_star p t k) eqn:E; [| eauto].
    inversion H; subst. auto.
Qed.

Lemma rmatch_inv (R : Type) (r : regex) :
  forall (s : string) (caps : captures) (k : string -> captures -> option R) (x : R),
    rmatch r s caps k = Some x ->
    exists s' more, k s' (more ++ caps)%list = Some x.
Proof.
  induction r as [| c | p | r1 IH1 r2 IH2 | r1 IH1 r2 IH2 | r1 IH1 | p | n r1 IH1];
    simpl; intros s caps k x H.
  - exists s, []. exact H.
  - destruct s as [| d t]; [discriminate |].
    destruct (Ascii.eqb c d); [| discriminate]. exists t, []. exact H.
  - destruct s as [| d t]; [discriminate |].
    destruct (p d); [| discriminate]. exists t, []. exact H.
  - apply IH1 in H. destruct H as (s1 & m1 & H).
    apply IH2 in H. destruct H as (s2 & m2 & H).
    exists s2, (m2 ++ m1)%list. rewrite <- app_assoc. exact H.
  - destruct (rmatch r1 s caps k) eqn:E.
    + inversion H; subst. eapply IH1; eauto.
    + eapply IH2; eauto.
  - destruct (rmatch r1 s caps k) eqn:E.
    + inversion H; subst. eapply IH1; eauto.
    + exists s, []. exact H.
  - apply match_star_inv in H. destruct H as (s' & H). exists s', []. exact H.
  - apply IH1 in H. destruct H as (s1 & m1 & H).
    exists s1, ((n, take (String.length s - String.length s1) s) :: m1). exact H.
Qed.

Lemma rmatch_seq (R : Type) (r1 r2 : regex) (s : string) (caps : captures)
      (k : string -> captures -> option R) :
  rmatch (Seq r1 r2) s caps k =
  rmatch r1 s caps (fun s' caps' => rmatch r2 s' caps' k).
Proof. reflexivity. Qed.

Lemma rmatch_grp (R : Type) (n : nat) (r : regex) (s : string) (caps : captures)
      (k : string -> captures -> option R) :
  rmatch (Grp n r) s caps k =
  rmatch r s caps
    (fun s' caps' => k s' ((n, take (String.length s - String.length s') s) :: caps')).
Proof. reflexivity. Qed.

Lemma capture_app (n : nat) (more caps : captures) :
  capture n caps <> None -> capture n (more ++ caps)%list <> None.
Proof.
  induction more as [| [m x] more IH]; simpl; intros H; [exact H |].
  destruct (Nat.eqb m n); [discriminate | auto].
Qed.

(** The seventh group of the pattern takes part in every match, so that
    [match[7].length] is always defined. *)
Lemma regExp_group7 (url : string) (caps : captures) :
  regex_match Server.regExp url = Some caps -> capture 7 caps <> None.
Proof.
  unfold regex_match, Server.regExp. intros H.
  do 5 (rewrite rmatch_seq in H; apply rmatch_inv in H; destruct H as (? & ? & H)).
  rewrite rmatch_seq, rmatch_grp in H.
  apply rmatch_inv in H. destruct H as (? & ? & H).
  apply rmatch_inv in H. destruct H as (? & ? & H).
  inversion H; subst. apply capture_app. simpl. discriminate.
Qed.

(** The fallback only returns identifiers of 11 code units. *)
Lemma extractVideoId_fallback_length (url id : string) :
  Server.extractVideoId_fallback url = Some id -> String.length id = 11%nat.
Proof.
  unfold Server.extractVideoId_fallback. intros H.
  destruct (regex_match Server.regExp url); [| discriminate].
  destruct (capture 7 c); [| discriminate].
  destruct (String.length s =? 11)%nat eqn:E; [| discriminate].
  inversion H; subst. apply Nat.eqb_eq. exact E.
Qed.

(** The three accepted forms give the same identifier; a text that is not
    an address gives none. *)
Example resolve_short_link :
  Server.extractVideoId Example.platform "https://youtu.be/abcdefghijk" = Some "abcdefghijk".
Proof. reflexivity. Qed.

Example resolve_watch :
  Server.extractVideoId Example.platform "https://www.youtube.com/watch?v=abcdefghijk&t=5"
  = Some "abcdefghijk".
Proof. reflexivity. Qed.

Example resolve_shorts :
  Server.extractVideoId Example.platform "https://www.youtube.com/shorts/abcdefghijk"
  = Some "abcdefghijk".
Proof. reflexivity. Qed.

Example resolve_not_a_url :
  URL_new Example.platform "not a url" = None /\
  Server.extractVideoId Example.platform "not a url" = None.
Proof. split; reflexivity. Qed.

(** The fallback at work on an address without scheme, which [new URL]
    rejects: the greedy prefix stops before the last marker. *)
Example resolve_fallback :
  URL_new Example.platform "www.youtube.com/watch?v=abcdefghijk&t=5" = None /\
  Server.extractVideoId Example.platform "www.youtube.com/watch?v=abcdefghijk&t=5"
  = Some "abcdefghijk" /\
  Server.extractVideoId Example.platform "www.youtube.com/watch?v=abc" = None.
Proof. repeat split; reflexivity. Qed.

(** The short-link branch returns the path without its slash, whatever its
    length. *)
Lemma extractVideoId_parsed_short_link (path : string) (params : list (string * string)) :
  Server.extractVideoId_parsed (mkURL "youtu.be" path params) = Some (slice1 path).
Proof. reflexivity. Qed.

(* --------------------------------------------------------------------- *)
(** ** The handler, stage by stage *)

Lemma api_process_missing (P : Platform) (w : Server.World) (req : Server.Request) :
  Spec.url_missing req = true ->
  Server.run w (Server.api_process P req) =
  ([], Server.mkResponse 400 (Server.ErrorBody "URL is required")).
Proof.
  unfold Spec.url_missing, Server.api_process.
  destruct (Server.url req) as [u |]; [| reflexivity].
  intros ->. reflexivity.
Qed.

Lemma api_process_unresolved (P : Platform) (w : Server.World) (req : Server.Request) :
  Spec.url_missing req = false -> Spec.resolved P req = None ->
  Server.run w (Server.api_process P req) =
  ([], Server.mkResponse 400 (Server.ErrorBody "Invalid YouTube URL")).
Proof.
  unfold Spec.url_missing, Spec.resolved, Server.api_process.
  destruct (Server.url req) as [u |]; [| discriminate].
  intros Hu. apply negb_false_iff in Hu. rewrite Hu. simpl.
  destruct (Server.extractVideoId P u) as [id |]; [| reflexivity].
  destruct (truthy_string id); [discriminate | reflexivity].
Qed.

Lemma api_process_resolved (P : Platform) (req : Server.Request) (id : string) :
  Spec.resolved P req = Some id ->
  Server.api_process P req =
  Server.bind (Server.process_video P id (Server.manualTranscript req))
              (fun r => Server.respond r).
Proof.
  unfold Spec.resolved, Server.api_process.
  destruct (Server.url req) as [u |]; [| discriminate].
  destruct (truthy_string u); [| discriminate]. simpl.
  destruct (Server.extractVideoId P u) as [id' |]; [| discriminate].
  destruct (truthy_string id'); [| discriminate]. simpl.
  intros H. inversion H; subst. reflexivity.
Qed.

Lemma resolved_not_missing (P : Platform) (req : Server.Request) (id : string) :
  Spec.resolved P req = Some id -> Spec.url_missing req = false.
Proof.
  unfold Spec.resolved, Spec.url_missing.
  destruct (Server.url req) as [u |]; [| discriminate].
  destruct (truthy_string u); [reflexivity | discriminate].
Qed.

(** Step 1 never asks for captions. *)
Lemma getVideoInfo_no_caption (w : Server.World) (id : string) :
  Server.caption_calls (fst (Server.run w (Server.getVideoInfo id))) = [].
Proof.
  unfold Server.getVideoInfo. simpl Server.run.
  destruct (Server.fetch w (Server.oembedUrl id)) as [| [|] [md |]]; try reflexivity.
  destruct (prop md "title"); reflexivity.
Qed.

(** Step 1 after a failed request: the defaults. *)
Lemma getVideoInfo_failed (w : Server.World) (id : string) :
  Spec.metadata_failed (Server.fetch w (Server.oembedUrl id)) = true ->
  snd (Server.run w (Server.getVideoInfo id)) = Server.default_meta id.
Proof.
  unfold Server.getVideoInfo. simpl Server.run.
  destruct (Server.fetch w (Server.oembedUrl id)) as [| [|] [md |]]; try reflexivity.
  destruct md; try discriminate. reflexivity.
Qed.

(** Step 1 after an answer that is an object or a primitive value: field
    by field. *)
Lemma getVideoInfo_answered (w : Server.World) (id : string) (metaData : value) :
  Server.fetch w (Server.oembedUrl id) = FetchResponds true (Some metaData) ->
  metaData <> JNull ->
  snd (Server.run w (Server.getVideoInfo id)) =
  Server.mkMeta
    (or_default (prop metaData "title") (Server.m_title (Server.default_meta id)))
    (or_default (prop metaData "author_name") (Server.m_author (Server.default_meta id)))
    (or_default (prop metaData "thumbnail_url") (Server.m_thumbnail (Server.default_meta id))).
Proof.
  intros H Hn. unfold Server.getVideoInfo. simpl Server.run. rewrite H.
  destruct metaData; try reflexivity; try congruence.
  unfold prop. destruct (lookup "title" fields); reflexivity.
Qed.

Lemma getTranscript_manual (P : Platform) (w : Server.World) (id m : string) :
  truthy_string m = true ->
  Server.run w (Server.getTranscript P id (Some m)) =
  ([Server.EvConsole Server.Log "Using manual transcript provided by user."], inr m).
Proof. intros H. unfold Server.getTranscript. rewrite H. reflexivity. Qed.

Lemma getTranscript_scrape (P : Platform) (id : string) (manual : option string) :
  Spec.provided manual = false ->
  Server.getTranscript P id manual = Server.scrape P id.
Proof.
  unfold Spec.provided, Server.getTranscript.
  destruct manual as [m |]; [intros ->|]; reflexivity.
Qed.

Lemma scrape_primary (P : Platform) (w : Server.World) (id : string)
      (items : list Server.CaptionItem) :
  Server.getSubtitles w id (Some "en") = Some items ->
  snd (Server.run w (Server.scrape P id)) = inr (Server.format_transcript P items) /\
  Server.caption_calls (fst (Server.run w (Server.scrape P id))) =
    [Server.EvGetSubtitles id (Some "en")].
Proof.
  intros H. unfold Server.scrape. simpl Server.run. rewrite H. split; reflexivity.
Qed.

Lemma scrape_default (P : Platform) (w : Server.World) (id : string)
      (items : list Server.CaptionItem) :
  Server.getSubtitles w id (Some "en") = None ->
  Server.getSubtitles w id None = Some items ->
  snd (Server.run w (Server.scrape P id)) = inr (Server.format_transcript P items) /\
  Server.caption_calls (fst (Server.run w (Server.scrape P id))) =
    [Server.EvGetSubtitles id (Some "en"); Server.EvGetSubtitles id None].
Proof.
  intros H1 H2. unfold Server.scrape. simpl Server.run. rewrite H1. simpl Server.run.
  rewrite H2. split; reflexivity.
Qed.

Lemma scrape_exhausted (P : Platform) (w : Server.World) (id : string) :
  Server.getSubtitles w id (Some "en") = None ->
  Server.getSubtitles w id None = None ->
  snd (Server.run w (Server.scrape P id)) = inl Server.manual_mode_message /\
  Server.caption_calls (fst (Server.run w (Server.scrape P id))) =
    [Server.EvGetSubtitles id (Some "en"); Server.EvGetSubtitles id None].
Proof.
  intros H1 H2. unfold Server.scrape. simpl Server.run. rewrite H1. simpl Server.run.
  rewrite H2. split; reflexivity.
Qed.

(** The answer of the handler for a resolved identifier, from the results of
    its two steps. *)
Lemma api_process_answer (P : Platform) (w : Server.World) (req : Server.Request)
      (id : string) :
  Spec.resolved P req = Some id ->
  let meta := snd (Server.run w (Server.getVideoInfo id)) in
  let t := Server.run w (Server.getTranscript P id (Server.manualTranscript req)) in
  snd (Server.run w (Server.api_process P req)) =
    match snd t with
    | inl message =>
        Server.mkResponse 500
          (Server.ErrorBody (if truthy_string message then message
                             else "Failed to process video"))
    | inr fullTranscript =>
        Server.mkResponse 200
          (Server.VideoBody
             (Server.mkVideoInfo (Server.m_title meta) (Server.m_author meta)
                                 (Server.m_thumbnail meta) fullTranscript id))
    end /\
  Server.caption_calls (fst (Server.run w (Server.api_process P req))) =
  Server.caption_calls (fst t).
Proof.
  intros H meta t. rewrite (api_process_resolved P req id H).
  rewrite run_bind. unfold Server.process_video. rewrite !run_bind. cbn [fst snd].
  fold meta. fold t. rewrite !caption_calls_app, getVideoInfo_no_caption.
  destruct (snd t) as [message | fullTranscript]; cbn; rewrite ?app_nil_r;
    split; reflexivity.
Qed.

(** The transcript step only fails after both caption requests have failed,
    and then with the message that points to the manual mode. *)
Lemma getTranscript_failure (P : Platform) (w : Server.World) (id : string)
      (manual : option string) (message : string) :
  snd (Server.run w (Server.getTranscript P id manual)) = inl message ->
  message = Server.manual_mode_message /\
  Spec.provided manual = false /\
  Server.getSubtitles w id (Some "en") = None /\
  Server.getSubtitles w id None = None.
Proof.
  destruct (Spec.provided manual) eqn:Hm.
  - destruct manual as [m |]; [| discriminate]. simpl in Hm.
    rewrite (getTranscript_manual P w id m Hm). discriminate.
  - rewrite (getTranscript_scrape P id manual Hm).
    destruct (Server.getSubtitles w id (Some "en")) as [items |] eqn:H1.
    + rewrite (proj1 (scrape_primary P w id items H1)). discriminate.
    + destruct (Server.getSubtitles w id None) as [items |] eqn:H2.
      * rewrite (proj1 (scrape_default P w id items H1 H2)). discriminate.
      * rewrite (proj1 (scrape_exhausted P w id H1 H2)).
        intros H. inversion H. auto.
Qed.



(* --------------------------------------------------------------------- *)
(** ** The claims about the server *)

(** C1 (defect of the code).  The claim asks that no identifier be returned
    whose length differs from 11.  The fallback pattern enforces it (lemma
    [extractVideoId_fallback_length]), the branches that follow a successful
    [new URL] do not: the short link [https://youtu.be/abc] resolves to the
    three code units [abc], and the handler then answers 200 with that
    identifier in every world. *)
Theorem short_link_identifier_length_unchecked :
  Server.extractVideoId Example.platform "https://youtu.be/abc" = Some "abc" /\
  String.length "abc" <> 11%nat /\
  forall w : Server.World,
  exists info : Server.VideoInfo,
    snd (Server.run w
           (Server.api_process Example.platform
              (Server.mkRequest (Some "https://youtu.be/abc") (Some "[0s] Intro")))) =
    Server.mkResponse 200 (Server.VideoBody info) /\
    Server.videoId info = "abc".
Proof.
  split; [reflexivity |]. split; [discriminate |]. intros w.
  pose (req := Server.mkRequest (Some "https://youtu.be/abc") (Some "[0s] Intro")).
  assert (Hr : Spec.resolved Example.platform req = Some "abc") by reflexivity.
  destruct (api_process_answer Example.platform w req "abc" Hr) as [H _].
  fold req. rewrite H. subst req. cbn [Server.manualTranscript].
  rewrite (getTranscript_manual Example.platform w "abc" "[0s] Intro" eq_refl).
  cbn [snd]. eexists. split; reflexivity.
Qed.

(** C3, as the code has it.  The answer of the route is one of four: 400
    with "URL is required" when the URL is missing; 400 with "Invalid
    YouTube URL" when no identifier is resolved; and, for a resolved
    identifier, 500 with the message of the error when the transcript step
    throws, 200 with the video object when it returns.  The two client
    errors share their status and differ by their message.  Whatever error
    is thrown while processing, the [catch] of the route answers 500 with
    its message (or a default text when the message is empty). *)
Theorem api_process_outcomes (P : Platform) (w : Server.World) (req : Server.Request) :
  let r := snd (Server.run w (Server.api_process P req)) in
  ((Spec.url_missing req = true /\
    r = Server.mkResponse 400 (Server.ErrorBody "URL is required")) \/
   (Spec.url_missing req = false /\ Spec.resolved P req = None /\
    r = Server.mkResponse 400 (Server.ErrorBody "Invalid YouTube URL")) \/
   (exists id : string,
      Spec.resolved P req = Some id /\
      match snd (Server.run w (Server.getTranscript P id (Server.manualTranscript req))) with
      | inl message =>
          message = Server.manual_mode_message /\
          r = Server.mkResponse 500 (Server.ErrorBody message)
      | inr fullTranscript =>
          exists info : Server.VideoInfo,
            r = Server.mkResponse 200 (Server.VideoBody info) /\
            Server.transcript info = fullTranscript /\
            Server.videoId info = id
      end)) /\
  forall message : string,
    snd (Server.run w (Server.respond (inl message))) =
    Server.mkResponse 500
      (Server.ErrorBody (if truthy_string message then message
                         else "Failed to process video")).
Proof.
  intros r. subst r. split; [| reflexivity].
  destruct (Spec.url_missing req) eqn:Hu.
  - left. rewrite (api_process_missing P w req Hu). auto.
  - destruct (Spec.resolved P req) as [id |] eqn:Hr.
    + right; right. exists id. split; [reflexivity |].
      rewrite (proj1 (api_process_answer P w req id Hr)).
      destruct (snd (Server.run w (Server.getTranscript P id (Server.manualTranscript req))))
        as [message | t] eqn:Ht.
      * destruct (getTranscript_failure P w id _ message Ht) as [-> _].
        split; reflexivity.
      * eexists. repeat split.
    + right; left. rewrite (api_process_unresolved P w req Hu Hr). auto.
Qed.

(** C3, as claimed, fails: a request without URL and a request whose URL
    cannot be resolved receive the same status, 400. *)
Lemma missing_and_invalid_url_share_status :
  let missing := Server.mkRequest None None in
  let invalid := Server.mkRequest (Some "not a url") None in
  Spec.url_missing missing = true /\
  Spec.url_missing invalid = false /\
  Spec.resolved Example.platform invalid = None /\
  Server.status (snd (Server.run Scenario.offline (Server.api_process Example.platform missing))) = 400 /\
  Server.status (snd (Server.run Scenario.offline (Server.api_process Example.platform invalid))) = 400.
Proof. repeat split; reflexivity. Qed.



(** C5.  When the manual transcript is provided and not empty, the scraper
    is never called, the transcript step returns the text as it was given,
    and so does the answer whenever an identifier is resolved. *)
Theorem manual_transcript_bypasses_scraper (P : Platform) (w : Server.World)
        (req : Server.Request) (m : string) :
  Server.manualTranscript req = Some m ->
  m <> "" ->
  let out := Server.run w (Server.api_process P req) in
  Server.caption_fetches (fst out) = 0%nat /\
  (forall id : string,
     Server.run w (Server.getTranscript P id (Some m)) =
     ([Server.EvConsole Server.Log "Using manual transcript provided by user."], inr m)) /\
  match Spec.resolved P req with
  | Some id =>
      exists info : Server.VideoInfo,
        snd out = Server.mkResponse 200 (Server.VideoBody info) /\
        Server.transcript info = m
  | None => Server.status (snd out) = 400
  end.
Proof.
  intros Hreq Hm out. subst out.
  assert (Ht : truthy_string m = true).
  { unfold truthy_string. apply negb_true_iff. apply String.eqb_neq. exact Hm. }
  split; [| split].
  - destruct (Spec.url_missing req) eqn:Hu.
    + rewrite (api_process_missing P w req Hu). reflexivity.
    + destruct (Spec.resolved P req) as [id |] eqn:Hr.
      * unfold Server.caption_fetches.
        rewrite (proj2 (api_process_answer P w req id Hr)), Hreq.
        rewrite (getTranscript_manual P w id m Ht). reflexivity.
      * rewrite (api_process_unresolved P w req Hu Hr). reflexivity.
  - intros id. apply getTranscript_manual. exact Ht.
  - destruct (Spec.resolved P req) as [id |] eqn:Hr.
    + rewrite (proj1 (api_process_answer P w req id Hr)), Hreq.
      rewrite (getTranscript_manual P w id m Ht). cbn [snd].
      eexists. split; reflexivity.
    + destruct (Spec.url_missing req) eqn:Hu.
      * rewrite (api_process_missing P w req Hu). reflexivity.
      * rewrite (api_process_unresolved P w req Hu Hr). reflexivity.
Qed.

Lemma manual_transcript_bypasses_scraper_witness :
  let req := Server.mkRequest (Some "https://youtu.be/abcdefghijk")
                              (Some "[0s] Intro") in
  Server.manualTranscript req = Some "[0s] Intro" /\
  Server.caption_fetches
    (fst (Server.run Scenario.english (Server.api_process Example.platform req))) = 0%nat.
Proof.
  split; [reflexivity |].
  refine (proj1 (manual_transcript_bypasses_scraper Example.platform Scenario.english
                  (Server.mkRequest (Some "https://youtu.be/abcdefghijk") (Some "[0s] Intro"))
                  "[0s] Intro" eq_refl _)).
  discriminate.
Defined.

(** On an offset that is not negative, [Math.floor] truncates. *)
Lemma floor_truncates (x : Q) : (0 <= x)%Q -> Qfloor x = Spec.truncate x.
Proof.
  destruct x as [n d]. unfold Qle, Spec.truncate. simpl. intros H.
  symmetry. apply Z.quot_div_nonneg; lia.
Qed.

Lemma transcript_line_annotated (P : Platform) (item : Server.CaptionItem) :
  (0 <= Server.start item)%Q ->
  Server.transcript_line P item = Spec.annotated_line P item.
Proof.
  intros H. unfold Server.transcript_line, Spec.annotated_line, Math_floor.
  rewrite (floor_truncates _ H). reflexivity.
Qed.

Lemma format_transcript_annotated (P : Platform) (items : list Server.CaptionItem) :
  Forall (fun item => (0 <= Server.start item)%Q) items ->
  Server.format_transcript P items = join newline (map (Spec.annotated_line P) items).
Proof.
  intros H. unfold Server.format_transcript. f_equal.
  induction H as [| item rest Hi _ IH]; simpl; [reflexivity |].
  rewrite IH, (transcript_line_annotated P item Hi). reflexivity.
Qed.

(** C9.  When a caption request of the handler succeeds with [items], whose
    offsets are not negative, the transcript sent downstream is the lines
    ["[Ns] text"], [N] the truncated offset, joined by newlines; there is
    one line for each caption, in the order of the captions. *)
Theorem transcript_blob_format (P : Platform) (w : Server.World) (req : Server.Request)
        (id : string) (items : list Server.CaptionItem) :
  Spec.resolved P req = Some id ->
  Spec.provided (Server.manualTranscript req) = false ->
  Forall (fun item => (0 <= Server.start item)%Q) items ->
  Server.getSubtitles w id (Some "en") = Some items \/
  (Server.getSubtitles w id (Some "en") = None /\
   Server.getSubtitles w id None = Some items) ->
  let lines := map (Spec.annotated_line P) items in
  (exists info : Server.VideoInfo,
     snd (Server.run w (Server.api_process P req)) =
       Server.mkResponse 200 (Server.VideoBody info) /\
     Server.transcript info = join newline lines) /\
  List.length lines = List.length items /\
  forall i : nat,
    nth_error lines i = option_map (Spec.annotated_line P) (nth_error items i).
Proof.
  intros Hr Hm Hpos Hsub lines. subst lines. split; [| split].
  - rewrite (proj1 (api_process_answer P w req id Hr)).
    rewrite (getTranscript_scrape P id _ Hm).
    rewrite <- (format_transcript_annotated P items Hpos).
    destruct Hsub as [H1 | [H1 H2]].
    + rewrite (proj1 (scrape_primary P w id items H1)). eexists. split; reflexivity.
    + rewrite (proj1 (scrape_default P w id items H1 H2)). eexists. split; reflexivity.
  - apply length_map.
  - intros i. apply nth_error_map.
Qed.

Lemma transcript_blob_format_witness :
  let req := Server.mkRequest (Some "https://youtu.be/abcdefghijk") None in
  Forall (fun item => (0 <= Server.start item)%Q) Scenario.captions /\
  exists info : Server.VideoInfo,
    snd (Server.run Scenario.english (Server.api_process Example.platform req)) =
      Server.mkResponse 200 (Server.VideoBody info) /\
    Server.transcript info = "[0s] Intro" ++ newline ++ "[30s] Step one".
Proof.
  assert (H : Forall (fun item => (0 <= Server.start item)%Q) Scenario.captions).
  { repeat constructor; discriminate. }
  split; [exact H |].
  exact (proj1 (transcript_blob_format Example.platform Scenario.english
                  (Server.mkRequest (Some "https://youtu.be/abcdefghijk") None)
                  "abcdefghijk" Scenario.captions eq_refl eq_refl H
                  (or_introl eq_refl))).
Defined.

(* --------------------------------------------------------------------- *)
(** ** The name of the exported document *)

Lemma replace_all_underscore_length (p : ascii -> bool) (s : string) :
  String.length (replace_all p "_" s) = String.length s.
Proof.
  induction s as [| c t IH]; simpl; [reflexivity |].
  destruct (p c); simpl; rewrite IH; reflexivity.
Qed.

Lemma replace_all_underscore_get (p : ascii -> bool) (s : string) :
  forall (i : nat) (c : ascii),
    String.get i s = Some c ->
    String.get i (replace_all p "_" s) = Some (if p c then "_"%char else c).
Proof.
  induction s as [| d t IH]; intros i c H; [destruct i; discriminate |].
  destruct i as [| i]; simpl in H.
  - inversion H; subst. simpl. destruct (p c); reflexivity.
  - simpl. destruct (p d); simpl; apply IH; exact H.
Qed.

Lemma get_lt_length (s : string) :
  forall (i : nat) (c : ascii), String.get i s = Some c -> (i < String.length s)%nat.
Proof.
  induction s as [| d t IH]; intros i c H; [destruct i; discriminate |].
  destruct i as [| i]; simpl in *; [lia |]. apply IH in H. lia.
Qed.

(** C2, as the code has it.  The name of the document is the title in which
    every code unit outside [A-Za-z0-9] is replaced by an underscore (the
    other code units stay where they are, so the length is kept), followed
    by [_Guide.pdf]. *)
Theorem pdf_name_replaces (title : string) :
  exists base : string,
    App.pdf_name title = base ++ "_Guide.pdf" /\
    String.length base = String.length title /\
    forall (i : nat) (c : ascii),
      String.get i title = Some c ->
      String.get i (App.pdf_name title) = Some (if is_alnum c then c else "_"%char).
Proof.
  exists (replace_all (fun c => negb (is_alnum c)) "_" title).
  split; [reflexivity |]. split; [apply replace_all_underscore_length |].
  intros i c H. unfold App.pdf_name.
  rewrite <- String.append_correct1.
  - rewrite (replace_all_underscore_get _ title i c H).
    destruct (is_alnum c); reflexivity.
  - rewrite replace_all_underscore_length. eapply get_lt_length; eauto.
Qed.

(** C2, as claimed, fails: the space of the title [a b] is not removed. *)
Lemma pdf_name_keeps_a_place_for_each_character :
  App.pdf_name "a b" = "a_b_Guide.pdf" /\
  Spec.stripped_name "a b" = "ab_Guide.pdf" /\
  App.pdf_name "a b" <> Spec.stripped_name "a b".
Proof. split; [reflexivity |]. split; [reflexivity |]. discriminate. Qed.

(* --------------------------------------------------------------------- *)
(** ** The client *)

Lemma lookup_assign_same (A : Type) (key : string) (v : A) (fields : list (string * A)) :
  lookup key (assign key v fields) = Some v.
Proof.
  induction fields as [| [k w] rest IH]; simpl.
  - rewrite String.eqb_refl. reflexivity.
  - destruct (String.eqb k key) eqn:E; simpl; rewrite E; [reflexivity | exact IH].
Qed.

Lemma lookup_assign_other (A : Type) (key other : string) (v : A)
      (fields : list (string * A)) :
  other <> key -> lookup other (assign key v fields) = lookup other fields.
Proof.
  intros Hne. induction fields as [| [k w] rest IH]; simpl.
  - apply String.eqb_neq in Hne. rewrite String.eqb_sym, Hne. reflexivity.
  - destruct (String.eqb k key) eqn:E; simpl.
    + apply String.eqb_eq in E. subst k.
      destruct (String.eqb key other) eqn:E2; [| reflexivity].
      apply String.eqb_eq in E2. congruence.
    + rewrite IH. reflexivity.
Qed.

(** Unfolds the operations of the monad of the client. *)
Ltac run_state :=
  unfold App.bind, App.try_catch, App.lift, App.ret, App.throw,
         App.setLoading, App.setError, App.setGuide, App.setProgress, App.setStatus;
  cbn [fst snd App.loading App.error App.guide App.progress App.status].

Arguments App.prompt : simpl never.

(** What [handleProcess] leaves behind once the server has answered with a
    success and an object, the prompt has been built and the model has
    answered it. *)
Lemma handleProcess_answered (P : Platform) (R : App.Remote) (url : string)
      (isManual : bool) (manualScript : string) (st : App.State)
      (data : value) (contents : string) (text : option string) :
  truthy_string url = true ->
  App.api_process R (App.request url isManual manualScript) =
    FetchResponds true (Some data) ->
  data <> JNull ->
  App.prompt P (field data "transcript") = Some contents ->
  App.generateContent R contents = App.AIResponds text ->
  App.handleProcess P R url isManual manualScript st =
  match JSON_parse P (App.text_or_default text) with
  | None =>
      App.mkState false (Some (App.Text App.parse_error)) None 50
                  "AI is generating your guide steps..."
  | Some result =>
      match App.stepsWithImages P (field data "videoId") result with
      | None =>
          App.mkState false (Some (App.Native "result.steps.map")) None 50
                      "AI is generating your guide steps..."
      | Some steps =>
          App.mkState false None
            (Some (App.mkGuide (field data "title") (field data "author")
                               (field data "thumbnail") steps (field data "videoId")))
            100 "Guide generated!"
      end
  end.
Proof.
  intros Hu Hapi Hdata Hp Hai.
  unfold App.handleProcess, App.generate. rewrite Hu, Hapi. simpl negb. cbv iota.
  destruct data; try congruence;
    run_state;
    rewrite Hp, Hai;
    destruct (JSON_parse P (App.text_or_default text)) as [result |];
    try reflexivity;
    destruct (App.stepsWithImages P _ result); reflexivity.
Qed.

(** A guide only appears after a successful answer of the server, and its
    metadata are the fields of that answer. *)
Lemma handleProcess_guide (P : Platform) (R : App.Remote) (url : string)
      (isManual : bool) (manualScript : string) (st : App.State) (g : App.GuideData) :
  truthy_string url = true ->
  App.guide (App.handleProcess P R url isManual manualScript st) = Some g ->
  exists data : value,
    App.api_process R (App.request url isManual manualScript) =
      FetchResponds true (Some data) /\
    App.author g = field data "author".
Proof.
  intros Hu. unfold App.handleProcess, App.generate. rewrite Hu. simpl negb. cbv iota.
  destruct (App.api_process R (App.request url isManual manualScript))
    as [| ok [data |]] eqn:Hapi;
    run_state;
    try discriminate.
  destruct ok; cbn.
  - destruct data; cbn; try discriminate;
      (destruct (App.prompt P _) as [contents |]; cbn; [| discriminate];
       destruct (App.generateContent R _) as [| text]; cbn; [discriminate |];
       destruct (JSON_parse P (App.text_or_default text)) as [result |]; cbn;
         [| discriminate];
       destruct (App.stepsWithImages P _ result); cbn; [| discriminate];
       intros H; inversion H; subst; eexists; split; reflexivity).
  - destruct (prop data "error"); cbn; try discriminate;
      destruct (ToString P _); cbn; discriminate.
Qed.

(* --------------------------------------------------------------------- *)
(** ** Enrichment *)

Lemma value_is_null (v : value) : v = JNull \/ v <> JNull.
Proof. destruct v; [left; reflexivity | right; discriminate ..]. Qed.

Lemma enrich_null (P : Platform) (videoId : option value) :
  App.enrich P videoId JNull = None.
Proof. unfold App.enrich. destruct (ToString_opt P videoId); reflexivity. Qed.

(** The enrichment of a step that is not [null]. *)
Lemma enrich_non_null (P : Platform) (videoId : option value) (x : value) :
  x <> JNull ->
  App.enrich P videoId x =
  match ToString_opt P videoId, ToString_opt P (field x "timestamp") with
  | Some id, Some t =>
      Some (assign "videoUrl"
              (JStr ("https://www.youtube.com/watch?v=" ++ id ++ "&t=" ++ t ++ "s"))
           (assign "imageUrl"
              (JStr ("https://img.youtube.com/vi/" ++ id ++ "/hqdefault.jpg"))
              (spread x)))
  | _, _ => None
  end.
Proof.
  intros Hx. unfold App.enrich.
  destruct (ToString_opt P videoId) as [id |]; [| reflexivity].
  destruct x; try congruence; try reflexivity.
  unfold field, prop. destruct (lookup "timestamp" fields); reflexivity.
Qed.

(** The media properties of an enriched step are the two addresses built
    from the identifier and the timestamp; every other property is the one
    of the step. *)
Lemma enrich_links (P : Platform) (videoId : option value) (x : value) (s : App.Step)
      (id : string) :
  App.enrich P videoId x = Some s ->
  ToString_opt P videoId = Some id ->
  x <> JNull /\
  exists t : string,
    ToString_opt P (field x "timestamp") = Some t /\
    s = assign "videoUrl"
          (JStr ("https://www.youtube.com/watch?v=" ++ id ++ "&t=" ++ t ++ "s"))
          (assign "imageUrl"
             (JStr ("https://img.youtube.com/vi/" ++ id ++ "/hqdefault.jpg"))
             (spread x)) /\
    lookup "imageUrl" s =
      Some (JStr ("https://img.youtube.com/vi/" ++ id ++ "/hqdefault.jpg")) /\
    lookup "videoUrl" s =
      Some (JStr ("https://www.youtube.com/watch?v=" ++ id ++ "&t=" ++ t ++ "s")) /\
    forall key : string,
      key <> "imageUrl" -> key <> "videoUrl" -> lookup key s = lookup key (spread x).
Proof.
  intros He Hid.
  assert (Hx : x <> JNull).
  { intros ->. rewrite enrich_null in He. discriminate. }
  split; [exact Hx |].
  rewrite (enrich_non_null P videoId x Hx), Hid in He.
  destruct (ToString_opt P (field x "timestamp")) as [t |]; [| discriminate].
  injection He as <-. exists t. split; [reflexivity |]. split; [reflexivity |].
  split; [| split].
  - rewrite lookup_assign_other by discriminate. apply lookup_assign_same.
  - apply lookup_assign_same.
  - intros key H1 H2. rewrite !lookup_assign_other by assumption. reflexivity.
Qed.

Lemma enrich_all_nth (P : Platform) (videoId : option value) (xs : list value) :
  forall out : list App.Step,
    App.enrich_all P videoId xs = Some out ->
    List.length out = List.length xs /\
    forall (i : nat) (x : value),
      nth_error xs i = Some x ->
      exists s : App.Step, nth_error out i = Some s /\ App.enrich P videoId x = Some s.
Proof.
  induction xs as [| x rest IH]; simpl; intros out H.
  - inversion H; subst. split; [reflexivity |]. intros [| i] y Hy; discriminate.
  - destruct (App.enrich P videoId x) as [y |] eqn:Hy; [| discriminate].
    destruct (App.enrich_all P videoId rest) as [ys |]; [| discriminate].
    inversion H; subst out. destruct (IH ys eq_refl) as [Hlen Hnth].
    split; [simpl; rewrite Hlen; reflexivity |].
    intros [| i] z Hz; simpl in Hz.
    + inversion Hz; subst z. exists y. auto.
    + apply Hnth. exact Hz.
Qed.

(** The enrichment of a list fails exactly when that of one of its elements
    does. *)
Lemma enrich_all_none (P : Platform) (videoId : option value) (xs : list value) :
  App.enrich_all P videoId xs = None <->
  exists x : value, In x xs /\ App.enrich P videoId x = None.
Proof.
  induction xs as [| x rest IH]; simpl.
  - split; [discriminate | intros (x & [] & _)].
  - destruct (App.enrich P videoId x) as [y |] eqn:Hy.
    + destruct (App.enrich_all P videoId rest) as [ys |].
      * split; [discriminate |]. intros (z & [Hz | Hz] & He); [congruence |].
        assert (H : Some ys = None) by (apply IH; exists z; auto).
        discriminate.
      * split; [| reflexivity]. intros _.
        destruct (proj1 IH eq_refl) as (z & Hz & He). exists z. auto.
    + split; [| reflexivity]. intros _. exists x. auto.
Qed.

Lemma well_formed_step_timestamp (x : value) :
  Spec.well_formed_step x = true ->
  exists (fields : list (string * value)) (q : Q),
    x = JObj fields /\ lookup "timestamp" fields = Some (JNum q).
Proof.
  destruct x as [| | | | | fields]; try discriminate. simpl.
  destruct (lookup "title" fields) as [[] |]; try discriminate.
  destruct (lookup "description" fields) as [[] |]; try discriminate.
  destruct (lookup "timestamp" fields) as [[| | q | | |] |] eqn:Hq; try discriminate.
  intros _. exists fields, q. split; [reflexivity | exact Hq].
Qed.

(** C7.  When the answer of the model parses to an object whose [steps] are
    [n] well-formed steps, the guide has [n] steps, the [i]-th of which is
    the [i]-th object of the answer with [imageUrl] set to the thumbnail
    [https://img.youtube.com/vi/<id>/hqdefault.jpg] of the video and
    [videoUrl] to the link
    [https://www.youtube.com/watch?v=<id>&t=<timestamp>s] made of the
    identifier and of the timestamp of that very step, whatever the object
    held under these two names; its other properties are kept. *)
Theorem steps_are_enriched_in_order (P : Platform) (R : App.Remote) (url : string)
        (isManual : bool) (manualScript : string) (st : App.State)
        (data : value) (contents : string) (text : option string) (result : value)
        (xs : list value) (id : string) :
  truthy_string url = true ->
  App.api_process R (App.request url isManual manualScript) =
    FetchResponds true (Some data) ->
  data <> JNull ->
  App.prompt P (field data "transcript") = Some contents ->
  App.generateContent R contents = App.AIResponds text ->
  JSON_parse P (App.text_or_default text) = Some result ->
  prop result "steps" = Got (JArr xs) ->
  Forall (fun x => Spec.well_formed_step x = true) xs ->
  ToString_opt P (field data "videoId") = Some id ->
  exists g : App.GuideData,
    App.guide (App.handleProcess P R url isManual manualScript st) = Some g /\
    List.length (App.steps g) = List.length xs /\
    forall (i : nat) (x : value),
      nth_error xs i = Some x ->
      exists (fields : list (string * value)) (q : Q) (s : App.Step),
        x = JObj fields /\
        lookup "timestamp" fields = Some (JNum q) /\
        nth_error (App.steps g) i = Some s /\
        lookup "imageUrl" s =
          Some (JStr ("https://img.youtube.com/vi/" ++ id ++ "/hqdefault.jpg")) /\
        lookup "videoUrl" s =
          Some (JStr ("https://www.youtube.com/watch?v=" ++ id ++ "&t="
                        ++ Number_toString P q ++ "s")) /\
        forall key : string,
          key <> "imageUrl" -> key <> "videoUrl" -> lookup key s = lookup key fields.
Proof.
  intros Hu Hapi Hdata Hp Hai Hparse Hsteps Hwf Hid.
  rewrite (handleProcess_answered P R url isManual manualScript st data contents text
             Hu Hapi Hdata Hp Hai).
  rewrite Hparse. unfold App.stepsWithImages. rewrite Hsteps.
  destruct (App.enrich_all P (field data "videoId") xs) as [out |] eqn:Hout.
  - destruct (enrich_all_nth P _ xs out Hout) as [Hlen Hnth].
    eexists. split; [reflexivity |]. split; [exact Hlen |].
    intros i x Hi. destruct (Hnth i x Hi) as (s & Hs & He).
    assert (Hx : Spec.well_formed_step x = true).
    { rewrite Forall_forall in Hwf. apply Hwf. eapply nth_error_In. exact Hi. }
    destruct (well_formed_step_timestamp x Hx) as (fields & q & -> & Hq).
    destruct (enrich_links P _ _ s id He Hid) as (_ & t & Ht & _ & H1 & H2 & H3).
    unfold field, prop in Ht. rewrite Hq in Ht. injection Ht as <-.
    exists fields, q, s. repeat split; assumption.
  - exfalso. apply enrich_all_none in Hout. destruct Hout as (x & Hin & He).
    rewrite Forall_forall in Hwf.
    destruct (well_formed_step_timestamp x (Hwf x Hin)) as (fields & q & -> & Hq).
    rewrite enrich_non_null, Hid in He by discriminate.
    unfold field, prop in He. rewrite Hq in He. discriminate.
Qed.

Lemma steps_are_enriched_in_order_witness :
  let st := App.handleProcess Example.platform
              (Pipeline.remote Example.platform Scenario.english Scenario.two_steps)
              "https://youtu.be/abcdefghijk" true "[0s] Intro" App.initial in
  JSON_parse Example.platform Scenario.two_steps_json =
    Some (JObj [("steps",
                 JArr [JObj [("title", JStr "Intro");
                             ("description", JStr "...");
                             ("timestamp", JNum 0);
                             ("videoUrl", JStr "http://example.org/v")];
                       JObj [("title", JStr "Step one");
                             ("description", JStr "...");
                             ("timestamp", JNum 95)]])]) /\
  exists g : App.GuideData,
    App.guide st = Some g /\
    List.length (App.steps g) = 2%nat /\
    exists s0 s1 : App.Step,
      nth_error (App.steps g) 0 = Some s0 /\
      nth_error (App.steps g) 1 = Some s1 /\
      lookup "title" s0 = Some (JStr "Intro") /\
      lookup "videoUrl" s0 =
        Some (JStr "https://www.youtube.com/watch?v=abcdefghijk&t=0s") /\
      lookup "title" s1 = Some (JStr "Step one") /\
      lookup "imageUrl" s1 =
        Some (JStr "https://img.youtube.com/vi/abcdefghijk/hqdefault.jpg") /\
      lookup "videoUrl" s1 =
        Some (JStr "https://www.youtube.com/watch?v=abcdefghijk&t=95s").
Proof.
  split; [reflexivity |].
  destruct (steps_are_enriched_in_order Example.platform
              (Pipeline.remote Example.platform Scenario.english Scenario.two_steps)
              "https://youtu.be/abcdefghijk" true "[0s] Intro" App.initial
              _ _ _ _ _ "abcdefghijk"
              eq_refl eq_refl ltac:(discriminate) eq_refl eq_refl eq_refl eq_refl
              ltac:(repeat constructor) eq_refl)
    as (g & Hg & Hlen & Hnth).
  exists g. split; [exact Hg |]. split; [exact Hlen |].
  destruct (Hnth 0%nat _ eq_refl) as (f0 & q0 & s0 & E0 & T0 & N0 & _ & V0 & K0).
  destruct (Hnth 1%nat _ eq_refl) as (f1 & q1 & s1 & E1 & T1 & N1 & I1 & V1 & K1).
  injection E0 as <-. injection E1 as <-.
  injection T0 as <-. injection T1 as <-.
  exists s0, s1. split; [exact N0 |]. split; [exact N1 |].
  split; [rewrite K0 by discriminate; reflexivity |].
  split; [exact V0 |].
  split; [rewrite K1 by discriminate; reflexivity |].
  split; [exact I1 | exact V1].
Defined.

(** C8, as the code has it.  When the model, asked with the prompt built
    from the transcript, answers with a text that is not empty and that
    [JSON.parse] rejects, the run ends with the error
    "Failed to parse AI response." and without a guide. *)
Theorem malformed_model_answer_is_fatal (P : Platform) (R : App.Remote) (url : string)
        (isManual : bool) (manualScript : string) (st : App.State)
        (data : value) (contents : string) (text : string) :
  truthy_string url = true ->
  App.api_process R (App.request url isManual manualScript) =
    FetchResponds true (Some data) ->
  data <> JNull ->
  App.prompt P (field data "transcript") = Some contents ->
  App.generateContent R contents = App.AIResponds (Some text) ->
  text <> "" ->
  JSON_parse P text = None ->
  let st' := App.handleProcess P R url isManual manualScript st in
  App.error st' = Some (App.Text "Failed to parse AI response.") /\
  App.guide st' = None /\
  App.loading st' = false.
Proof.
  intros Hu Hapi Hdata Hp Hai Htext Hparse st'. subst st'.
  rewrite (handleProcess_answered P R url isManual manualScript st data contents
             (Some text) Hu Hapi Hdata Hp Hai).
  assert (Ht : App.text_or_default (Some text) = text).
  { unfold App.text_or_default, truthy_string.
    apply String.eqb_neq in Htext. rewrite Htext. reflexivity. }
  rewrite Ht, Hparse. repeat split.
Qed.

Lemma malformed_model_answer_is_fatal_witness :
  let st' := App.handleProcess Example.platform
               (Pipeline.remote Example.platform Scenario.english Scenario.garbled)
               "https://youtu.be/abcdefghijk" false "" App.initial in
  JSON_parse Example.platform "Sorry, I cannot help with that." = None /\
  App.error st' = Some (App.Text "Failed to parse AI response.") /\
  App.guide st' = None /\
  App.loading st' = false.
Proof.
  split; [reflexivity |].
  refine (malformed_model_answer_is_fatal Example.platform
            (Pipeline.remote Example.platform Scenario.english Scenario.garbled)
            "https://youtu.be/abcdefghijk" false "" App.initial
            _ _ "Sorry, I cannot help with that." eq_refl eq_refl _ eq_refl eq_refl
            _ eq_refl);
    discriminate.
Defined.

(** C8, as claimed, fails: the empty text is not JSON, yet a model that
    answers with it leaves a guide (without steps) and no error. *)
Lemma empty_text_is_not_json_but_gives_a_guide :
  let st' := App.handleProcess Example.platform
               (Pipeline.remote Example.platform Scenario.english Scenario.silent)
               "https://youtu.be/abcdefghijk" false "" App.initial in
  Scenario.silent "" = App.AIResponds (Some "") /\
  JSON_parse Example.platform "" = None /\
  App.error st' = None /\
  exists g : App.GuideData, App.guide st' = Some g /\ App.steps g = [].
Proof.
  split; [reflexivity |]. split; [reflexivity |]. split; [reflexivity |].
  eexists. split; reflexivity.
Qed.

(** C10.  When the answer of the model, asked with the prompt built from
    the transcript, has no text, or the empty text, the text that is parsed
    is [{"steps":[]}], and the run ends with a guide without steps and
    without error. *)
Theorem empty_model_answer_gives_empty_guide (P : Platform) (R : App.Remote)
        (url : string) (isManual : bool) (manualScript : string) (st : App.State)
        (data : value) (contents : string) (text : option string) :
  truthy_string url = true ->
  App.api_process R (App.request url isManual manualScript) =
    FetchResponds true (Some data) ->
  data <> JNull ->
  App.prompt P (field data "transcript") = Some contents ->
  App.generateContent R contents = App.AIResponds text ->
  text = None \/ text = Some "" ->
  JSON_parse P App.empty_guide_json = Some (JObj [("steps", JArr [])]) ->
  let st' := App.handleProcess P R url isManual manualScript st in
  App.text_or_default text = App.empty_guide_json /\
  App.error st' = None /\
  App.guide st' =
    Some (App.mkGuide (field data "title") (field data "author")
                      (field data "thumbnail") [] (field data "videoId")).
Proof.
  intros Hu Hapi Hdata Hp Hai Htext Hparse st'. subst st'.
  assert (Ht : App.text_or_default text = App.empty_guide_json).
  { destruct Htext as [-> | ->]; reflexivity. }
  split; [exact Ht |].
  rewrite (handleProcess_answered P R url isManual manualScript st data contents text
             Hu Hapi Hdata Hp Hai).
  rewrite Ht, Hparse. split; reflexivity.
Qed.

Lemma empty_model_answer_gives_empty_guide_witness :
  let st' := App.handleProcess Example.platform
               (Pipeline.remote Example.platform Scenario.english Scenario.absent)
               "https://youtu.be/abcdefghijk" false "" App.initial in
  JSON_parse Example.platform App.empty_guide_json = Some (JObj [("steps", JArr [])]) /\
  App.error st' = None /\
  App.guide st' =
    Some (App.mkGuide (Some (JStr "YouTube Video")) (Some (JStr "Unknown Creator"))
            (Some (JStr "https://img.youtube.com/vi/abcdefghijk/maxresdefault.jpg"))
            [] (Some (JStr "abcdefghijk"))).
Proof.
  split; [reflexivity |].
  refine (proj2 (empty_model_answer_gives_empty_guide Example.platform
            (Pipeline.remote Example.platform Scenario.english Scenario.absent)
            "https://youtu.be/abcdefghijk" false "" App.initial
            _ _ None eq_refl eq_refl _ eq_refl eq_refl (or_introl eq_refl) eq_refl)).
  discriminate.
Defined.

(* --------------------------------------------------------------------- *)
(** ** Metadata *)

Lemma field_missing_default (metaData : value) (name : string) (d : value) :
  field metaData name = None -> or_default (prop metaData name) d = d.
Proof.
  unfold field. destruct (prop metaData name); [reflexivity | reflexivity | discriminate].
Qed.

(** C6.  For a resolved identifier the handler only fails when the
    transcript cannot be had: the metadata request never makes it fail.
    When that request fails, the answer carries the three defaults and the
    guide built from it has the author "Unknown Creator"; when it succeeds
    but lacks a field, that field has its default. *)
Theorem metadata_never_fatal (P : Platform) (w : Server.World) (url : string)
        (isManual : bool) (manualScript : string) (id : string) :
  let req := App.request url isManual manualScript in
  Spec.resolved P req = Some id ->
  let r := snd (Server.run w (Server.api_process P req)) in
  let defaults (info : Server.VideoInfo) :=
    Server.title info = JStr "YouTube Video" /\
    Server.author info = JStr "Unknown Creator" /\
    Server.thumbnail info =
      JStr ("https://img.youtube.com/vi/" ++ id ++ "/maxresdefault.jpg") in
  ((exists info : Server.VideoInfo, r = Server.mkResponse 200 (Server.VideoBody info)) \/
   (r = Server.mkResponse 500 (Server.ErrorBody Server.manual_mode_message) /\
    Spec.provided (Server.manualTranscript req) = false /\
    Server.getSubtitles w id (Some "en") = None /\
    Server.getSubtitles w id None = None)) /\
  (Spec.metadata_failed (Server.fetch w (Server.oembedUrl id)) = true ->
   (forall info : Server.VideoInfo, Server.body r = Server.VideoBody info -> defaults info) /\
   (forall (ai : string -> App.AIOutcome) (st : App.State) (g : App.GuideData),
      App.guide (App.handleProcess P (Pipeline.remote P w ai) url isManual manualScript st)
        = Some g ->
      App.author g = Some (JStr "Unknown Creator"))) /\
  (forall (metaData : value) (info : Server.VideoInfo),
     Server.fetch w (Server.oembedUrl id) = FetchResponds true (Some metaData) ->
     Server.body r = Server.VideoBody info ->
     (field metaData "title" = None -> Server.title info = JStr "YouTube Video") /\
     (field metaData "author_name" = None -> Server.author info = JStr "Unknown Creator") /\
     (field metaData "thumbnail_url" = None ->
      Server.thumbnail info =
        JStr ("https://img.youtube.com/vi/" ++ id ++ "/maxresdefault.jpg"))).
Proof.
  intros req Hr r defaults.
  assert (Hans := proj1 (api_process_answer P w req id Hr)). cbv zeta in Hans.
  fold r in Hans.
  remember (snd (Server.run w (Server.getVideoInfo id))) as meta eqn:Hmeta.
  remember (snd (Server.run w (Server.getTranscript P id (Server.manualTranscript req))))
    as t eqn:Ht.
  assert (Hu : truthy_string url = true).
  { apply resolved_not_missing in Hr. unfold Spec.url_missing in Hr. simpl in Hr.
    apply negb_false_iff. exact Hr. }
  assert (Hbody : forall info, Server.body r = Server.VideoBody info ->
                    Pipeline.ok r = true /\
                    Server.title info = Server.m_title meta /\
                    Server.author info = Server.m_author meta /\
                    Server.thumbnail info = Server.m_thumbnail meta).
  { intros info H. rewrite Hans in H |- *. destruct t; [discriminate |].
    injection H as <-. repeat split. }
  split; [| split].
  - destruct t as [message | fullTranscript].
    + right. symmetry in Ht.
      destruct (getTranscript_failure P w id _ message Ht) as (-> & H1 & H2 & H3).
      rewrite Hans. auto.
    + left. eexists. exact Hans.
  - intros Hfail. rewrite (getVideoInfo_failed w id Hfail) in Hmeta. subst meta.
    assert (Hdef : forall info, Server.body r = Server.VideoBody info -> defaults info).
    { intros info H. destruct (Hbody info H) as (_ & H1 & H2 & H3).
      unfold defaults. rewrite H1, H2, H3. repeat split. }
    split; [exact Hdef |].
    intros ai st g Hg.
    destruct (handleProcess_guide P _ url isManual manualScript st g Hu Hg)
      as (data & Hdata & Hauthor).
    rewrite Hauthor. cbn [App.api_process Pipeline.remote] in Hdata.
    fold req in Hdata. fold r in Hdata.
    unfold Pipeline.observe in Hdata. injection Hdata as Hok Hjson.
    destruct (Server.body r) as [e | info] eqn:Hb.
    + exfalso. rewrite Hans in Hok, Hb. destruct t; discriminate.
    + destruct (Hdef info eq_refl) as (_ & Ha & _). subst data.
      cbn. rewrite Ha. reflexivity.
  - intros metaData info Hfetch H.
    destruct (Hbody info H) as (_ & H1 & H2 & H3). rewrite H1, H2, H3.
    destruct (value_is_null metaData) as [-> | Hn].
    + rewrite (getVideoInfo_failed w id) in Hmeta by (rewrite Hfetch; reflexivity).
      subst meta. repeat split.
    + rewrite (getVideoInfo_answered w id metaData Hfetch Hn) in Hmeta. subst meta.
      cbn [Server.m_title Server.m_author Server.m_thumbnail].
      repeat split; intros Hf; rewrite (field_missing_default _ _ _ Hf); reflexivity.
Qed.

Lemma metadata_never_fatal_witness :
  let st := App.handleProcess Example.platform
              (Pipeline.remote Example.platform Scenario.default_language_only
                               Scenario.one_step)
              "https://youtu.be/abcdefghijk" false "" App.initial in
  Spec.resolved Example.platform (App.request "https://youtu.be/abcdefghijk" false "")
    = Some "abcdefghijk" /\
  Spec.metadata_failed
    (Server.fetch Scenario.default_language_only (Server.oembedUrl "abcdefghijk")) = true /\
  exists g : App.GuideData,
    App.guide st = Some g /\ App.author g = Some (JStr "Unknown Creator").
Proof.
  split; [reflexivity |]. split; [reflexivity |].
  eexists. split; [reflexivity |].
  refine (proj2 (proj1 (proj2 (metadata_never_fatal Example.platform
                                 Scenario.default_language_only
                                 "https://youtu.be/abcdefghijk" false "" "abcdefghijk"
                                 eq_refl)) eq_refl)
            Scenario.one_step App.initial _ eq_refl).
Defined.

(* ===================================================================== *)
(** * Further properties of the code *)
(* ===================================================================== *)

(* --------------------------------------------------------------------- *)
(** ** Strings *)

Lemma append_assoc (a b c : string) : (a ++ b) ++ c = a ++ (b ++ c).
Proof. induction a as [| x a IH]; simpl; [reflexivity | rewrite IH; reflexivity]. Qed.

Lemma append_empty_r (a : string) : a ++ "" = a.
Proof. induction a as [| x a IH]; simpl; [reflexivity | rewrite IH; reflexivity]. Qed.

Lemma length_append (a b : string) :
  String.length (a ++ b) = (String.length a + String.length b)%nat.
Proof. induction a as [| x a IH]; simpl; [reflexivity | rewrite IH; reflexivity]. Qed.

Lemma take_append (a b : string) : take (String.length a) (a ++ b) = a.
Proof. induction a as [| x a IH]; simpl; [destruct b |]; try reflexivity. rewrite IH. reflexivity. Qed.

Lemma every_append (p : ascii -> bool) (a b : string) :
  Notions.every p (a ++ b) = Notions.every p a && Notions.every p b.
Proof.
  induction a as [| x a IH]; simpl; [reflexivity |].
  rewrite IH, andb_assoc. reflexivity.
Qed.

(* --------------------------------------------------------------------- *)
(** ** The resolver, further *)

(** A greedy star consumes a prefix made of code units of its class. *)
Lemma match_star_split (R : Type) (p : ascii -> bool) (s : string)
      (k : string -> option R) (x : R) :
  match_star p s k = Some x ->
  exists a s' : string,
    s = a ++ s' /\ Notions.every p a = true /\ k s' = Some x.
Proof.
  induction s as [| c t IH]; simpl; intros H.
  - exists "", "". auto.
  - destruct (p c) eqn:Hc.
    + destruct (match_star p t k) eqn:E.
      * inversion H; subst. destruct (IH eq_refl) as (a & s' & -> & Ha & Hk).
        exists (String c a), s'. simpl. rewrite Hc, Ha. auto.
      * exists "", (String c t). auto.
    + exists "", (String c t). auto.
Qed.

(** A successful match consumes a prefix of the text and extends the
    captures. *)
Lemma rmatch_split (R : Type) (r : regex) :
  forall (s : string) (caps : captures) (k : string -> captures -> option R) (x : R),
    rmatch r s caps k = Some x ->
    exists (a s' : string) (more : captures),
      s = a ++ s' /\ k s' (more ++ caps)%list = Some x.
Proof.
  induction r as [| c | p | r1 IH1 r2 IH2 | r1 IH1 r2 IH2 | r1 IH1 | p | n r1 IH1];
    simpl; intros s caps k x H.
  - exists "", s, []. auto.
  - destruct s as [| d t]; [discriminate |].
    destruct (Ascii.eqb c d); [| discriminate]. exists (String d ""), t, []. auto.
  - destruct s as [| d t]; [discriminate |].
    destruct (p d); [| discriminate]. exists (String d ""), t, []. auto.
  - apply IH1 in H. destruct H as (a1 & s1 & m1 & -> & H).
    apply IH2 in H. destruct H as (a2 & s2 & m2 & -> & H).
    exists (a1 ++ a2), s2, (m2 ++ m1)%list.
    rewrite append_assoc, <- app_assoc. auto.
  - destruct (rmatch r1 s caps k) eqn:E.
    + inversion H; subst. eapply IH1; eauto.
    + eapply IH2; eauto.
  - destruct (rmatch r1 s caps k) eqn:E.
    + inversion H; subst. eapply IH1; eauto.
    + exists "", s, []. auto.
  - apply match_star_split in H. destruct H as (a & s' & -> & _ & H).
    exists a, s', []. auto.
  - apply IH1 in H. destruct H as (a1 & s1 & m1 & -> & H).
    exists a1, s1, ((n, take (String.length (a1 ++ s1) - String.length s1) (a1 ++ s1)) :: m1).
    auto.
Qed.

(** X1.  An identifier returned by the fallback has 11 code units, none of
    which is [#], [&] or [?], and it occurs in the text it was extracted
    from. *)
Theorem extractVideoId_fallback_sound (url id : string) :
  Server.extractVideoId_fallback url = Some id ->
  String.length id = 11%nat /\
  Notions.every (fun c => negb (Notions.delimiter c)) id = true /\
  Notions.occurs id url.
Proof.
  intros H. split; [exact (extractVideoId_fallback_length url id H) |].
  unfold Server.extractVideoId_fallback in H.
  destruct (regex_match Server.regExp url) as [caps |] eqn:Hm; [| discriminate].
  unfold regex_match, Server.regExp in Hm.
  rewrite rmatch_seq in Hm. apply rmatch_split in Hm.
  destruct Hm as (a0 & s0 & m0 & -> & Hm).
  rewrite rmatch_seq in Hm. apply rmatch_split in Hm.
  destruct Hm as (a1 & s1 & m1 & -> & Hm).
  rewrite rmatch_seq in Hm. apply rmatch_split in Hm.
  destruct Hm as (a2 & s2 & m2 & -> & Hm).
  rewrite rmatch_seq in Hm. apply rmatch_split in Hm.
  destruct Hm as (a3 & s3 & m3 & -> & Hm).
  rewrite rmatch_seq in Hm. apply rmatch_split in Hm.
  destruct Hm as (a4 & s4 & m4 & -> & Hm).
  rewrite rmatch_seq, rmatch_grp in Hm. simpl rmatch in Hm.
  apply match_star_split in Hm. destruct Hm as (a & s5 & -> & Ha & Hm).
  apply match_star_split in Hm. destruct Hm as (a6 & s6 & -> & _ & Hm).
  inversion Hm; subst caps. clear Hm.
  simpl capture in H.
  rewrite length_append, Nat.add_sub, take_append in H.
  destruct (String.length a =? 11)%nat; [| discriminate].
  inversion H; subst id. split; [exact Ha |].
  exists (a0 ++ a1 ++ a2 ++ a3 ++ a4), (a6 ++ s6).
  rewrite !append_assoc. reflexivity.
Qed.

Lemma extractVideoId_fallback_sound_witness :
  Server.extractVideoId_fallback "youtu.be/abcdefghijk?t=5" = Some "abcdefghijk" /\
  Notions.occurs "abcdefghijk" "youtu.be/abcdefghijk?t=5".
Proof.
  split; [reflexivity |].
  exact (proj2 (proj2 (extractVideoId_fallback_sound
                         "youtu.be/abcdefghijk?t=5" "abcdefghijk" eq_refl))).
Defined.

Lemma prefix_append (a b : string) : String.prefix a (a ++ b) = true.
Proof.
  induction a as [| c a IH]; simpl; [destruct b; reflexivity |].
  destruct (ascii_dec c c); [exact IH | congruence].
Qed.

Lemma split_segment (sep : ascii) (a t : string) :
  Notions.every (fun c => negb (Ascii.eqb c sep)) a = true ->
  split sep (a ++ String sep t) = a :: split sep t.
Proof.
  induction a as [| c a IH]; simpl; intros H.
  - rewrite Ascii.eqb_refl. reflexivity.
  - apply andb_true_iff in H. destruct H as [Hc Ha].
    apply negb_true_iff in Hc. rewrite Hc, (IH Ha). reflexivity.
Qed.

Lemma split_single (sep : ascii) (a : string) :
  Notions.every (fun c => negb (Ascii.eqb c sep)) a = true ->
  split sep a = [a].
Proof.
  induction a as [| c a IH]; simpl; intros H; [reflexivity |].
  apply andb_true_iff in H. destruct H as [Hc Ha].
  apply negb_true_iff in Hc. rewrite Hc, (IH Ha). reflexivity.
Qed.

(** X2.  Once the address is parsed, the three accepted forms give the same
    identifier: the path of a short link, the segment that follows
    [/shorts/] (what comes after the next slash is ignored) and the query
    parameter [v] of any other path. *)
Theorem accepted_forms_agree (id host rest : string)
        (params params' params'' : list (string * string)) :
  Notions.every (fun c => negb (Ascii.eqb c "/")) id = true ->
  host <> "youtu.be" ->
  includes host "youtube.com" = true ->
  rest = "" \/ (exists t : string, rest = String "/" t) ->
  lookup "v" params'' = Some id ->
  Server.extractVideoId_parsed (mkURL "youtu.be" ("/" ++ id) params) = Some id /\
  Server.extractVideoId_parsed (mkURL host ("/shorts/" ++ id ++ rest) params') = Some id /\
  Server.extractVideoId_parsed (mkURL host "/watch" params'') = Some id.
Proof.
  intros Hid Hhost Hinc Hrest Hv. split; [reflexivity |].
  apply String.eqb_neq in Hhost.
  unfold Server.extractVideoId_parsed. cbn [hostname pathname searchParams].
  rewrite Hhost, Hinc. split.
  - assert (Hp : startsWith ("/shorts/" ++ id ++ rest) "/shorts/" = true)
      by apply prefix_append.
    rewrite Hp.
    change ("/shorts/" ++ id ++ rest) with ("" ++ String "/" ("shorts" ++ String "/" (id ++ rest))).
    rewrite split_segment by reflexivity.
    rewrite split_segment by reflexivity.
    destruct Hrest as [-> | [t ->]].
    + rewrite append_empty_r, (split_single _ _ Hid). reflexivity.
    + rewrite (split_segment _ _ _ Hid). reflexivity.
  - exact Hv.
Qed.

Lemma accepted_forms_agree_witness :
  Server.extractVideoId_parsed (mkURL "youtu.be" "/abcdefghijk" []) = Some "abcdefghijk" /\
  Server.extractVideoId_parsed
    (mkURL "m.youtube.com" "/shorts/abcdefghijk/extra" []) = Some "abcdefghijk" /\
  Server.extractVideoId_parsed
    (mkURL "m.youtube.com" "/watch" [("t", "5"); ("v", "abcdefghijk")]) = Some "abcdefghijk".
Proof.
  refine (accepted_forms_agree "abcdefghijk" "m.youtube.com" "/extra"
            [] [] [("t", "5"); ("v", "abcdefghijk")] eq_refl _ eq_refl
            (or_intror (ex_intro _ "extra" eq_refl)) eq_refl).
  discriminate.
Defined.

(** X3.  The fallback pattern is consulted only when [new URL] throws.  An
    address that parses, whose host is not [youtu.be], whose path does not
    start with [/shorts/] and that has no parameter [v], is not resolved,
    and the handler answers 400 without any remote call: so it is with the
    paths [/embed/...], [/v/...] and [/live/...], although the fallback
    pattern knows the markers [embed/] and [v/]. *)
Theorem parsed_address_without_v_is_rejected (P : Platform) (url : string) (urlObj : URL) :
  URL_new P url = Some urlObj ->
  hostname urlObj <> "youtu.be" ->
  startsWith (pathname urlObj) "/shorts/" = false ->
  lookup "v" (searchParams urlObj) = None ->
  Server.extractVideoId P url = None /\
  forall (w : Server.World) (manual : option string),
    Server.run w (Server.api_process P (Server.mkRequest (Some url) manual)) =
    ([], Server.mkResponse 400
           (Server.ErrorBody (if truthy_string url then "Invalid YouTube URL"
                              else "URL is required"))).
Proof.
  intros Hnew Hhost Hpath Hv.
  assert (He : Server.extractVideoId P url = None).
  { unfold Server.extractVideoId, Server.extractVideoId_parsed. rewrite Hnew.
    apply String.eqb_neq in Hhost. rewrite Hhost, Hpath, Hv.
    destruct (includes (hostname urlObj) "youtube.com"); reflexivity. }
  split; [exact He |]. intros w manual.
  unfold Server.api_process. cbn [Server.url]. rewrite He.
  destruct (truthy_string url); reflexivity.
Qed.

Lemma parsed_address_without_v_is_rejected_witness :
  URL_new Example.platform "https://www.youtube.com/embed/abcdefghijk" =
    Some (mkURL "www.youtube.com" "/embed/abcdefghijk" []) /\
  Server.extractVideoId_fallback "https://www.youtube.com/embed/abcdefghijk"
    = Some "abcdefghijk" /\
  Server.extractVideoId Example.platform "https://www.youtube.com/embed/abcdefghijk" = None.
Proof.
  split; [reflexivity |]. split; [reflexivity |].
  refine (proj1 (parsed_address_without_v_is_rejected Example.platform
                   "https://www.youtube.com/embed/abcdefghijk"
                   (mkURL "www.youtube.com" "/embed/abcdefghijk" [])
                   eq_refl _ eq_refl eq_refl)).
  discriminate.
Defined.

(* --------------------------------------------------------------------- *)
(** ** The handler, further *)

Lemma resolved_truthy (P : Platform) (req : Server.Request) (id : string) :
  Spec.resolved P req = Some id ->
  id <> "" /\
  exists u : string,
    Server.url req = Some u /\ u <> "" /\ Server.extractVideoId P u = Some id.
Proof.
  unfold Spec.resolved.
  destruct (Server.url req) as [u |]; [| discriminate].
  destruct (truthy_string u) eqn:Hu; [| discriminate].
  destruct (Server.extractVideoId P u) as [id' |] eqn:He; [| discriminate].
  destruct (truthy_string id') eqn:Hid; [| discriminate].
  intros H. inversion H; subst id'. unfold truthy_string in *.
  apply negb_true_iff in Hu, Hid. apply String.eqb_neq in Hu, Hid.
  split; [exact Hid |]. exists u. repeat split; try reflexivity; assumption.
Qed.

(** X4.  When the URL is missing or no identifier is resolved, the handler
    answers 400 without having called the oEmbed service or the scraper,
    and without having written to the console. *)
Theorem no_remote_call_without_identifier (P : Platform) (w : Server.World)
        (req : Server.Request) :
  Spec.resolved P req = None ->
  fst (Server.run w (Server.api_process P req)) = [] /\
  Server.status (snd (Server.run w (Server.api_process P req))) = 400.
Proof.
  intros Hr. destruct (Spec.url_missing req) eqn:Hu.
  - rewrite (api_process_missing P w req Hu). split; reflexivity.
  - rewrite (api_process_unresolved P w req Hu Hr). split; reflexivity.
Qed.

Lemma no_remote_call_without_identifier_witness :
  let req := Server.mkRequest (Some "https://example.org/watch") (Some "[0s] Intro") in
  Spec.resolved Example.platform req = None /\
  fst (Server.run Scenario.english (Server.api_process Example.platform req)) = [].
Proof.
  split; [reflexivity |].
  exact (proj1 (no_remote_call_without_identifier Example.platform Scenario.english
                  (Server.mkRequest (Some "https://example.org/watch") (Some "[0s] Intro"))
                  eq_refl)).
Defined.

Lemma getVideoInfo_trace (w : Server.World) (id : string) :
  exists rest : list Server.Event,
    fst (Server.run w (Server.getVideoInfo id)) =
      Server.EvFetch (Server.oembedUrl id) :: rest /\
    Notions.fetch_calls rest = [].
Proof.
  unfold Server.getVideoInfo. simpl Server.run.
  destruct (Server.fetch w (Server.oembedUrl id)) as [| [|] [md |]];
    try (eexists; split; reflexivity).
  destruct (prop md "title"); eexists; split; reflexivity.
Qed.

Lemma getTranscript_no_fetch (P : Platform) (w : Server.World) (id : string)
      (manual : option string) :
  Notions.fetch_calls (fst (Server.run w (Server.getTranscript P id manual))) = [].
Proof.
  destruct (Spec.provided manual) eqn:Hm.
  - destruct manual as [m |]; [| discriminate]. simpl in Hm.
    rewrite (getTranscript_manual P w id m Hm). reflexivity.
  - rewrite (getTranscript_scrape P id manual Hm).
    unfold Server.scrape. simpl Server.run.
    destruct (Server.getSubtitles w id (Some "en")); [reflexivity |].
    simpl Server.run.
    destruct (Server.getSubtitles w id None); reflexivity.
Qed.

Lemma fetch_calls_app (t1 t2 : list Server.Event) :
  Notions.fetch_calls (t1 ++ t2)%list =
  (Notions.fetch_calls t1 ++ Notions.fetch_calls t2)%list.
Proof. apply filter_app. Qed.

(** The trace of the handler for a resolved identifier: the trace of step
    1, then the trace of step 2, then console events only. *)
Lemma api_process_trace (P : Platform) (w : Server.World) (req : Server.Request)
      (id : string) :
  Spec.resolved P req = Some id ->
  exists tail : list Server.Event,
    fst (Server.run w (Server.api_process P req)) =
      (fst (Server.run w (Server.getVideoInfo id)) ++
       fst (Server.run w (Server.getTranscript P id (Server.manualTranscript req))) ++
       tail)%list /\
    Notions.fetch_calls tail = [] /\ Server.caption_calls tail = [].
Proof.
  intros Hr. rewrite (api_process_resolved P req id Hr).
  rewrite run_bind. unfold Server.process_video. rewrite !run_bind. cbn [fst snd].
  rewrite <- !app_assoc. eexists. split; [reflexivity |].
  destruct (snd (Server.run w (Server.getTranscript P id (Server.manualTranscript req))));
    split; reflexivity.
Qed.

(** X5.  For a resolved identifier the handler asks the oEmbed service
    exactly once, for that identifier, and before anything else. *)
Theorem metadata_is_fetched_once_and_first (P : Platform) (w : Server.World)
        (req : Server.Request) (id : string) :
  Spec.resolved P req = Some id ->
  let tr := fst (Server.run w (Server.api_process P req)) in
  (exists rest : list Server.Event, tr = Server.EvFetch (Server.oembedUrl id) :: rest) /\
  Notions.fetch_calls tr = [Server.EvFetch (Server.oembedUrl id)].
Proof.
  intros Hr tr. subst tr.
  destruct (api_process_trace P w req id Hr) as (tail & -> & Hf & _).
  destruct (getVideoInfo_trace w id) as (rest & -> & Hrest).
  split; [eexists; reflexivity |].
  rewrite !fetch_calls_app, getTranscript_no_fetch, Hf.
  unfold Notions.fetch_calls at 1. cbn [filter Notions.is_fetch].
  fold (Notions.fetch_calls rest). rewrite Hrest. reflexivity.
Qed.

Lemma metadata_is_fetched_once_and_first_witness :
  let req := Server.mkRequest (Some "https://youtu.be/abcdefghijk") None in
  Spec.resolved Example.platform req = Some "abcdefghijk" /\
  Notions.fetch_calls
    (fst (Server.run Scenario.default_language_only
            (Server.api_process Example.platform req))) =
  [Server.EvFetch
     "https://www.youtube.com/oembed?url=https://www.youtube.com/watch?v=abcdefghijk&format=json"].
Proof.
  split; [reflexivity |].
  exact (proj2 (metadata_is_fetched_once_and_first Example.platform
                  Scenario.default_language_only
                  (Server.mkRequest (Some "https://youtu.be/abcdefghijk") None)
                  "abcdefghijk" eq_refl)).
Defined.

(** X6.  An answer 200 always carries the identifier that was resolved from
    the URL of the request, and that identifier is not empty. *)
Theorem success_carries_resolved_identifier (P : Platform) (w : Server.World)
        (req : Server.Request) (info : Server.VideoInfo) :
  snd (Server.run w (Server.api_process P req)) =
    Server.mkResponse 200 (Server.VideoBody info) ->
  Server.videoId info <> "" /\
  exists u : string,
    Server.url req = Some u /\ u <> "" /\
    Server.extractVideoId P u = Some (Server.videoId info).
Proof.
  intros H. destruct (Spec.resolved P req) as [id |] eqn:Hr.
  - rewrite (proj1 (api_process_answer P w req id Hr)) in H.
    destruct (snd (Server.run w (Server.getTranscript P id (Server.manualTranscript req))));
      [discriminate |].
    injection H as <-. cbn [Server.videoId]. exact (resolved_truthy P req id Hr).
  - destruct (Spec.url_missing req) eqn:Hu.
    + rewrite (api_process_missing P w req Hu) in H. discriminate.
    + rewrite (api_process_unresolved P w req Hu Hr) in H. discriminate.
Qed.

Lemma success_carries_resolved_identifier_witness :
  exists info : Server.VideoInfo,
    snd (Server.run Scenario.english
           (Server.api_process Example.platform
              (Server.mkRequest (Some "https://youtu.be/abcdefghijk") None))) =
      Server.mkResponse 200 (Server.VideoBody info) /\
    Server.videoId info <> "".
Proof.
  eexists. split; [reflexivity |].
  refine (proj1 (success_carries_resolved_identifier Example.platform Scenario.english
                   (Server.mkRequest (Some "https://youtu.be/abcdefghijk") None) _ eq_refl)).
Defined.

(** X7.  When the request for the English captions succeeds, the scraper is
    asked once only and the transcript is made of that result; a result
    without any caption is a success too, with the empty transcript. *)
Theorem english_captions_suffice (P : Platform) (w : Server.World) (req : Server.Request)
        (id : string) (items : list Server.CaptionItem) :
  Spec.resolved P req = Some id ->
  Spec.provided (Server.manualTranscript req) = false ->
  Server.getSubtitles w id (Some "en") = Some items ->
  let out := Server.run w (Server.api_process P req) in
  (exists info : Server.VideoInfo,
     snd out = Server.mkResponse 200 (Server.VideoBody info) /\
     Server.transcript info = Server.format_transcript P items /\
     (items = [] -> Server.transcript info = "")) /\
  Server.caption_calls (fst out) = [Server.EvGetSubtitles id (Some "en")].
Proof.
  intros Hr Hm H1 out. subst out.
  rewrite (proj1 (api_process_answer P w req id Hr)).
  rewrite (proj2 (api_process_answer P w req id Hr)).
  rewrite (getTranscript_scrape P id _ Hm).
  destruct (scrape_primary P w id items H1) as [-> ->].
  split; [| reflexivity]. eexists. split; [reflexivity |].
  split; [reflexivity |]. intros ->. reflexivity.
Qed.

Lemma english_captions_suffice_witness :
  let req := Server.mkRequest (Some "https://youtu.be/abcdefghijk") None in
  let w := Server.mkWorld (fun _ => FetchRejects) (fun _ _ => Some []) in
  Server.getSubtitles w "abcdefghijk" (Some "en") = Some [] /\
  (exists info : Server.VideoInfo,
     snd (Server.run w (Server.api_process Example.platform req)) =
       Server.mkResponse 200 (Server.VideoBody info) /\
     Server.transcript info = "") /\
  Server.caption_calls (fst (Server.run w (Server.api_process Example.platform req))) =
    [Server.EvGetSubtitles "abcdefghijk" (Some "en")].
Proof.
  split; [reflexivity |].
  destruct (english_captions_suffice Example.platform
              (Server.mkWorld (fun _ => FetchRejects) (fun _ _ => Some []))
              (Server.mkRequest (Some "https://youtu.be/abcdefghijk") None)
              "abcdefghijk" [] eq_refl eq_refl eq_refl) as [(info & H1 & _ & H3) H2].
  split; [| exact H2]. exists info. split; [exact H1 | exact (H3 eq_refl)].
Defined.

(** X8.  The handler reads the manual transcript through its truthiness
    only: a request whose [manualTranscript] is the empty string runs as
    the same request without the field, scraper included. *)
Theorem empty_manual_transcript_is_absent (P : Platform) (w : Server.World)
        (u : option string) (manual : option string) :
  Spec.provided manual = false ->
  Server.run w (Server.api_process P (Server.mkRequest u manual)) =
  Server.run w (Server.api_process P (Server.mkRequest u None)).
Proof.
  intros Hm. unfold Server.api_process. cbn [Server.url Server.manualTranscript].
  destruct u as [u |]; [| reflexivity].
  destruct (negb (truthy_string u)); [reflexivity |].
  destruct (Server.extractVideoId P u) as [id |]; [| reflexivity].
  destruct (negb (truthy_string id)); [reflexivity |].
  unfold Server.process_video.
  rewrite (getTranscript_scrape P id manual Hm), (getTranscript_scrape P id None eq_refl).
  reflexivity.
Qed.

Lemma empty_manual_transcript_is_absent_witness :
  Server.caption_calls
    (fst (Server.run Scenario.english
            (Server.api_process Example.platform
               (Server.mkRequest (Some "https://youtu.be/abcdefghijk") (Some ""))))) =
  [Server.EvGetSubtitles "abcdefghijk" (Some "en")].
Proof.
  rewrite (empty_manual_transcript_is_absent Example.platform Scenario.english
             (Some "https://youtu.be/abcdefghijk") (Some "") eq_refl).
  reflexivity.
Defined.

(** X9.  A field of the oEmbed answer that is present and truthy is passed
    on as it is, whatever its type; a field that is present but falsy (the
    empty string, [0], [false], [null]) is replaced by its default, as a
    missing field is. *)
Theorem metadata_fields_pass_through (P : Platform) (w : Server.World)
        (req : Server.Request) (id : string) (fields : list (string * value))
        (info : Server.VideoInfo) :
  Spec.resolved P req = Some id ->
  Server.fetch w (Server.oembedUrl id) = FetchResponds true (Some (JObj fields)) ->
  snd (Server.run w (Server.api_process P req)) =
    Server.mkResponse 200 (Server.VideoBody info) ->
  let pick (name : string) (d : value) :=
    match lookup name fields with
    | Some v => if truthy v then v else d
    | None => d
    end in
  Server.title info = pick "title" (JStr "YouTube Video") /\
  Server.author info = pick "author_name" (JStr "Unknown Creator") /\
  Server.thumbnail info =
    pick "thumbnail_url"
         (JStr ("https://img.youtube.com/vi/" ++ id ++ "/maxresdefault.jpg")).
Proof.
  intros Hr Hf H pick.
  rewrite (proj1 (api_process_answer P w req id Hr)) in H.
  remember (snd (Server.run w (Server.getVideoInfo id))) as meta eqn:Hmeta.
  rewrite (getVideoInfo_answered w id (JObj fields) Hf) in Hmeta by discriminate.
  destruct (snd (Server.run w (Server.getTranscript P id (Server.manualTranscript req))));
    [discriminate |].
  injection H as <-. subst meta.
  cbn [Server.title Server.author Server.thumbnail
       Server.m_title Server.m_author Server.m_thumbnail].
  unfold pick, prop, or_default.
  destruct (lookup "title" fields), (lookup "author_name" fields),
           (lookup "thumbnail_url" fields); repeat split.
Qed.

Lemma metadata_fields_pass_through_witness :
  let w := Server.mkWorld
             (fun _ => FetchResponds true
                         (Some (JObj [("title", JStr ""); ("author_name", JNum 7)])))
             (fun _ _ => Some Scenario.captions) in
  let req := Server.mkRequest (Some "https://youtu.be/abcdefghijk") None in
  exists info : Server.VideoInfo,
    snd (Server.run w (Server.api_process Example.platform req)) =
      Server.mkResponse 200 (Server.VideoBody info) /\
    Server.title info = JStr "YouTube Video" /\
    Server.author info = JNum 7 /\
    Server.thumbnail info =
      JStr "https://img.youtube.com/vi/abcdefghijk/maxresdefault.jpg".
Proof.
  eexists. split; [reflexivity |].
  exact (metadata_fields_pass_through Example.platform
           (Server.mkWorld
              (fun _ => FetchResponds true
                          (Some (JObj [("title", JStr ""); ("author_name", JNum 7)])))
              (fun _ _ => Some Scenario.captions))
           (Server.mkRequest (Some "https://youtu.be/abcdefghijk") None)
           "abcdefghijk" [("title", JStr ""); ("author_name", JNum 7)] _
           eq_refl eq_refl eq_refl).
Defined.

(* --------------------------------------------------------------------- *)
(** ** The client, further *)

(** The two ways a run can end. *)
Lemma handleProcess_outcome (P : Platform) (R : App.Remote) (url : string)
        (isManual : bool) (manualScript : string) (st : App.State) :
  truthy_string url = true ->
  let st' := App.handleProcess P R url isManual manualScript st in
  App.loading st' = false /\
  ((exists g : App.GuideData,
      App.guide st' = Some g /\ App.error st' = None /\
      App.progress st' = 100 /\ App.status st' = "Guide generated!") \/
   (App.guide st' = None /\
    (exists m : App.message, App.error st' = Some m) /\
    (App.progress st' = 10 \/ App.progress st' = 50))).
Proof.
  intros Hu st'. subst st'.
  unfold App.handleProcess, App.generate. rewrite Hu. simpl negb. cbv iota.
  destruct (App.api_process R (App.request url isManual manualScript))
    as [| ok [data |]] eqn:Hapi;
    run_state;
    try (split; [reflexivity | right; split; [reflexivity | split; [eexists; reflexivity | auto]]]).
  destruct ok; cbn.
  - destruct data; cbn;
      try (split; [reflexivity | right; split; [reflexivity | split; [eexists; reflexivity | auto]]]);
      (destruct (App.prompt P _) as [contents |]; cbn;
       [| split; [reflexivity | right; split; [reflexivity | split; [eexists; reflexivity | auto]]]];
       destruct (App.generateContent R _) as [| text]; cbn;
       [split; [reflexivity | right; split; [reflexivity | split; [eexists; reflexivity | auto]]] |];
       destruct (JSON_parse P (App.text_or_default text)) as [result |]; cbn;
       [| split; [reflexivity | right; split; [reflexivity | split; [eexists; reflexivity | auto]]]];
       destruct (App.stepsWithImages P _ result); cbn;
       [split; [reflexivity | left; eexists; repeat split; reflexivity]
       | split; [reflexivity | right; split; [reflexivity | split; [eexists; reflexivity | auto]]]]).
  - destruct (prop data "error"); cbn;
      try (destruct (ToString P _); cbn);
      (split; [reflexivity | right; split; [reflexivity | split; [eexists; reflexivity | auto]]]).
Qed.

(** X10.  A run of [handleProcess] on a URL that is not empty ends, whatever
    the state it started from, with [loading] off and with either a guide
    and no error (progress 100) or an error and no guide (progress 10 or
    50): a guide or an error of an earlier run does not survive. *)
Theorem handleProcess_all_or_nothing (P : Platform) (R : App.Remote) (url : string)
        (isManual : bool) (manualScript : string) (st : App.State) :
  truthy_string url = true ->
  let st' := App.handleProcess P R url isManual manualScript st in
  App.loading st' = false /\
  ((exists g : App.GuideData,
      App.guide st' = Some g /\ App.error st' = None /\
      App.progress st' = 100 /\ App.status st' = "Guide generated!") \/
   (App.guide st' = None /\
    (exists m : App.message, App.error st' = Some m) /\
    (App.progress st' = 10 \/ App.progress st' = 50))).
Proof. exact (handleProcess_outcome P R url isManual manualScript st). Qed.

Lemma handleProcess_all_or_nothing_witness :
  let stale := App.mkState true (Some (App.Text "old error")) None 37 "old" in
  let st' := App.handleProcess Example.platform
               (Pipeline.remote Example.platform Scenario.offline Scenario.one_step)
               "https://youtu.be/abcdefghijk" false "" stale in
  App.loading st' = false /\ App.guide st' = None /\
  App.error st' = Some (App.Text Server.manual_mode_message).
Proof.
  split; [| split; reflexivity].
  exact (proj1 (handleProcess_all_or_nothing Example.platform
                  (Pipeline.remote Example.platform Scenario.offline Scenario.one_step)
                  "https://youtu.be/abcdefghijk" false ""
                  (App.mkState true (Some (App.Text "old error")) None 37 "old") eq_refl)).
Defined.

(** X11.  After a run on a URL that is not empty the page shows the guide
    or the landing form, never both and never the progress view.  When the
    button "Start New" is there and is pressed, the page is the landing
    form without error text, the fields are empty (the mode is kept), the
    submit button is disabled and a submit changes nothing. *)
Theorem start_new_returns_to_the_landing_form (P : Platform) (R : App.Remote)
        (f : Render.Form) (st : App.State) :
  truthy_string (Render.url f) = true ->
  let st' := Render.submit P R f st in
  Render.progress_view (Render.render st') = false /\
  Render.landing (Render.render st') = negb (Render.guide_view (Render.render st')) /\
  (Render.start_new_button (Render.render st') = true ->
   let f'' := fst (Render.startNew f st') in
   let st'' := snd (Render.startNew f st') in
   Render.render st'' = Render.mkPage true false false false false /\
   f'' = Render.mkForm "" "" (Render.isManual f) /\
   Render.submit_disabled f'' = true /\
   Render.submit P R f'' st'' = st'').
Proof.
  intros Hu st'.
  destruct (handleProcess_outcome P R (Render.url f) (Render.isManual f)
              (Render.manualScript f) st Hu) as [Hl Hcases].
  fold (Render.submit P R f st) in Hl, Hcases. fold st' in Hl, Hcases.
  unfold Render.render, Render.has_guide, Render.has_error.
  cbn [Render.progress_view Render.landing Render.guide_view Render.start_new_button].
  rewrite Hl. split; [reflexivity |].
  destruct Hcases as [(g & Hg & He & _) | (Hg & _)]; rewrite Hg.
  - split; [reflexivity |]. intros _.
    cbn [Render.startNew fst snd App.guide App.loading App.error
         Render.progress_view Render.landing Render.guide_view Render.start_new_button].
    rewrite Hl, He. repeat split.
    destruct (Render.isManual f); reflexivity.
  - split; [reflexivity |]. discriminate.
Qed.

Lemma start_new_returns_to_the_landing_form_witness :
  let f := Render.mkForm "https://youtu.be/abcdefghijk" "[0s] Intro" true in
  let R := Pipeline.remote Example.platform Scenario.offline Scenario.one_step in
  let st' := Render.submit Example.platform R f App.initial in
  Render.start_new_button (Render.render st') = true /\
  Render.render (snd (Render.startNew f st')) = Render.mkPage true false false false false.
Proof.
  split; [reflexivity |].
  exact (proj1 (proj2 (proj2 (start_new_returns_to_the_landing_form Example.platform
           (Pipeline.remote Example.platform Scenario.offline Scenario.one_step)
           (Render.mkForm "https://youtu.be/abcdefghijk" "[0s] Intro" true)
           App.initial eq_refl)) eq_refl)).
Defined.

(** What the client does with an answer that is not a success and carries
    an error text that is not empty. *)
Lemma handleProcess_rejected (P : Platform) (R : App.Remote) (url : string)
      (isManual : bool) (manualScript : string) (st : App.State) (e : string) :
  truthy_string url = true ->
  truthy_string e = true ->
  App.api_process R (App.request url isManual manualScript) =
    FetchResponds false (Some (JObj [("error", JStr e)])) ->
  App.handleProcess P R url isManual manualScript st =
  App.mkState false (Some (App.Text e)) None 10 "Analyzing video content...".
Proof.
  intros Hu He Hapi. unfold App.handleProcess, App.generate. rewrite Hu, Hapi.
  simpl negb. cbv iota. run_state. cbn [prop lookup String.eqb Ascii.eqb Bool.eqb].
  unfold or_default, truthy. unfold truthy_string in He. rewrite He. reflexivity.
Qed.

(** X12.  Whenever the server answers with an error, the client ends with
    exactly the text of that error and without a guide, whatever the
    generative model would have answered. *)
Theorem server_error_is_shown_verbatim (P : Platform) (w : Server.World)
        (ai : string -> App.AIOutcome) (url : string) (isManual : bool)
        (manualScript : string) (st : App.State) (e : string) :
  truthy_string url = true ->
  Server.body (snd (Server.run w (Server.api_process P
                                    (App.request url isManual manualScript)))) =
    Server.ErrorBody e ->
  let st' := App.handleProcess P (Pipeline.remote P w ai) url isManual manualScript st in
  App.error st' = Some (App.Text e) /\ App.guide st' = None /\ App.loading st' = false.
Proof.
  intros Hu Hbody st'. subst st'.
  set (req := App.request url isManual manualScript) in *.
  assert (Hmiss : Spec.url_missing req = false).
  { unfold Spec.url_missing, req. simpl. rewrite Hu. reflexivity. }
  assert (Hr : snd (Server.run w (Server.api_process P req)) =
               Server.mkResponse 400 (Server.ErrorBody e) /\ truthy_string e = true \/
               snd (Server.run w (Server.api_process P req)) =
               Server.mkResponse 500 (Server.ErrorBody e) /\ truthy_string e = true).
  { destruct (Spec.resolved P req) as [id |] eqn:Hres.
    - right. rewrite (proj1 (api_process_answer P w req id Hres)) in Hbody |- *.
      destruct (snd (Server.run w (Server.getTranscript P id (Server.manualTranscript req))))
        as [message | t] eqn:Ht; [| discriminate].
      destruct (getTranscript_failure P w id _ message Ht) as [-> _].
      injection Hbody as <-. split; reflexivity.
    - left. rewrite (api_process_unresolved P w req Hmiss Hres) in Hbody |- *.
      injection Hbody as <-. split; reflexivity. }
  assert (Hapi : App.api_process (Pipeline.remote P w ai) req =
                 FetchResponds false (Some (JObj [("error", JStr e)]))).
  { cbn [App.api_process Pipeline.remote]. unfold Pipeline.observe.
    destruct Hr as [[-> _] | [-> _]]; reflexivity. }
  assert (He : truthy_string e = true) by (destruct Hr as [[_ H] | [_ H]]; exact H).
  rewrite (handleProcess_rejected P _ url isManual manualScript st e Hu He Hapi).
  repeat split.
Qed.

Lemma server_error_is_shown_verbatim_witness :
  let st' := App.handleProcess Example.platform
               (Pipeline.remote Example.platform Scenario.english Scenario.one_step)
               "not a url" false "" App.initial in
  App.error st' = Some (App.Text "Invalid YouTube URL") /\ App.guide st' = None.
Proof.
  destruct (server_error_is_shown_verbatim Example.platform Scenario.english
              Scenario.one_step "not a url" false "" App.initial "Invalid YouTube URL"
              eq_refl eq_refl) as (H1 & H2 & _).
  split; [exact H1 | exact H2].
Defined.

(* --------------------------------------------------------------------- *)
(** ** Enrichment, further *)

(** X13.  For an identifier that can be written into an address, the
    enrichment of the steps throws exactly when one of them is [null] or
    has a timestamp that cannot be converted to a string (an object with a
    property [toString] of its own, an array that holds one).  Any other
    step, object or not, becomes a step of the guide at the same place,
    with [https://img.youtube.com/vi/<id>/hqdefault.jpg] as [imageUrl] and
    [https://www.youtube.com/watch?v=<id>&t=<t>s] as [videoUrl], [<t>] being
    the text of whatever its [timestamp] is, [undefined] included. *)
Theorem enrichment_fails_on_null_or_unwritable_timestamp (P : Platform)
        (videoId : option value) (id : string) (xs : list value) :
  ToString_opt P videoId = Some id ->
  (App.enrich_all P videoId xs = None <->
   exists x : value,
     In x xs /\ (x = JNull \/ ToString_opt P (field x "timestamp") = None)) /\
  forall out : list App.Step,
    App.enrich_all P videoId xs = Some out ->
    List.length out = List.length xs /\
    forall (i : nat) (x : value),
      nth_error xs i = Some x ->
      exists (s : App.Step) (t : string),
        nth_error out i = Some s /\
        ToString_opt P (field x "timestamp") = Some t /\
        lookup "imageUrl" s =
          Some (JStr ("https://img.youtube.com/vi/" ++ id ++ "/hqdefault.jpg")) /\
        lookup "videoUrl" s =
          Some (JStr ("https://www.youtube.com/watch?v=" ++ id ++ "&t=" ++ t ++ "s")).
Proof.
  intros Hid. split.
  - rewrite enrich_all_none. split.
    + intros (x & Hin & He). exists x. split; [exact Hin |].
      destruct (value_is_null x) as [-> | Hx]; [left; reflexivity | right].
      rewrite (enrich_non_null P videoId x Hx), Hid in He.
      destruct (ToString_opt P (field x "timestamp")); [discriminate | reflexivity].
    + intros (x & Hin & [-> | Ht]); [exists JNull; split; [exact Hin | apply enrich_null] |].
      exists x. split; [exact Hin |].
      destruct (value_is_null x) as [-> | Hx]; [apply enrich_null |].
      rewrite (enrich_non_null P videoId x Hx), Hid, Ht. reflexivity.
  - intros out Hout. destruct (enrich_all_nth P videoId xs out Hout) as [Hlen Hnth].
    split; [exact Hlen |]. intros i x Hi.
    destruct (Hnth i x Hi) as (s & Hs & He).
    destruct (enrich_links P videoId x s id He Hid) as (_ & t & Ht & _ & H1 & H2 & _).
    exists s, t. auto.
Qed.

Lemma enrichment_fails_on_null_or_unwritable_timestamp_witness :
  let vid := Some (JStr "abcdefghijk") in
  App.enrich_all Example.platform vid
    [JObj [("timestamp", JNum 5)]; JObj [("timestamp", JObj [("toString", JNum 0)])]]
    = None /\
  App.enrich_all Example.platform vid [JObj [("timestamp", JNum 5)]; JNull] = None /\
  exists out : list App.Step,
    App.enrich_all Example.platform vid [JNum 3; JObj [("timestamp", JNum 95)]] = Some out /\
    exists (s : App.Step) (t : string),
      nth_error out 1 = Some s /\
      ToString_opt Example.platform (Some (JNum 95)) = Some t /\
      lookup "imageUrl" s =
        Some (JStr ("https://img.youtube.com/vi/" ++ "abcdefghijk" ++ "/hqdefault.jpg")) /\
      lookup "videoUrl" s =
        Some (JStr ("https://www.youtube.com/watch?v=" ++ "abcdefghijk" ++ "&t=" ++ t ++ "s")).
Proof.
  split; [| split].
  - apply (proj1 (enrichment_fails_on_null_or_unwritable_timestamp Example.platform
                    (Some (JStr "abcdefghijk")) "abcdefghijk"
                    [JObj [("timestamp", JNum 5)];
                     JObj [("timestamp", JObj [("toString", JNum 0)])]] eq_refl)).
    eexists. split; [right; left; reflexivity | right; reflexivity].
  - apply (proj1 (enrichment_fails_on_null_or_unwritable_timestamp Example.platform
                    (Some (JStr "abcdefghijk")) "abcdefghijk"
                    [JObj [("timestamp", JNum 5)]; JNull] eq_refl)).
    eexists. split; [right; left; reflexivity | left; reflexivity].
  - eexists. split; [reflexivity |].
    exact (proj2 (proj2 (enrichment_fails_on_null_or_unwritable_timestamp
                           Example.platform (Some (JStr "abcdefghijk")) "abcdefghijk"
                           [JNum 3; JObj [("timestamp", JNum 95)]] eq_refl) _ eq_refl)
             1%nat _ eq_refl).
Defined.

Lemma assign_lookup_same (A : Type) (key : string) (v : A) (fields : list (string * A)) :
  lookup key fields = Some v -> assign key v fields = fields.
Proof.
  induction fields as [| [k w] rest IH]; simpl; [discriminate |].
  destruct (String.eqb k key) eqn:E.
  - intros H. inversion H; subst. reflexivity.
  - intros H. rewrite (IH H). reflexivity.
Qed.

Lemma index_key_not_timestamp (i : nat) : String.eqb (index_key i) "timestamp" = false.
Proof.
  unfold index_key. destruct (Nat.to_uint i); reflexivity.
Qed.

Lemma lookup_indexed_timestamp (A : Type) (xs : list A) :
  forall i : nat, lookup "timestamp" (indexed i xs) = None.
Proof.
  induction xs as [| x rest IH]; intros i; simpl; [reflexivity |].
  rewrite index_key_not_timestamp. apply IH.
Qed.

Lemma spread_timestamp (x : value) :
  x <> JNull -> lookup "timestamp" (spread x) = field x "timestamp".
Proof.
  intros Hx. destruct x; try congruence; try reflexivity.
  - apply lookup_indexed_timestamp.
  - apply lookup_indexed_timestamp.
  - unfold field, prop, spread. destruct (lookup "timestamp" fields); reflexivity.
Qed.

(** X14.  Enrichment is idempotent: enriching again, for the same video, a
    step that is already enriched gives that step back unchanged. *)
Theorem enrichment_is_idempotent (P : Platform) (videoId : option value)
        (x : value) (s : App.Step) :
  App.enrich P videoId x = Some s ->
  App.enrich P videoId (JObj s) = Some s.
Proof.
  intros He.
  destruct (ToString_opt P videoId) as [id |] eqn:Hid;
    [| unfold App.enrich in He; rewrite Hid in He; discriminate].
  destruct (enrich_links P videoId x s id He Hid) as (Hx & t & Ht & Hs & Hi & Hv & Hk).
  assert (Hts : lookup "timestamp" s = field x "timestamp").
  { rewrite Hk by discriminate. apply spread_timestamp. exact Hx. }
  rewrite enrich_non_null, Hid by discriminate.
  assert (Hf : field (JObj s) "timestamp" = field x "timestamp").
  { unfold field at 1. unfold prop. rewrite Hts.
    destruct (field x "timestamp"); reflexivity. }
  rewrite Hf, Ht. cbn [spread].
  rewrite (assign_lookup_same _ _ _ _ Hi), (assign_lookup_same _ _ _ _ Hv).
  reflexivity.
Qed.

Lemma enrichment_is_idempotent_witness :
  let vid := Some (JStr "abcdefghijk") in
  let s := [("title", JStr "Intro"); ("timestamp", JNum 0);
            ("imageUrl", JStr "https://img.youtube.com/vi/abcdefghijk/hqdefault.jpg");
            ("videoUrl", JStr "https://www.youtube.com/watch?v=abcdefghijk&t=0s")] in
  App.enrich Example.platform vid (JObj [("title", JStr "Intro"); ("timestamp", JNum 0)])
    = Some s /\
  App.enrich Example.platform vid (JObj s) = Some s.
Proof.
  split; [reflexivity |].
  exact (enrichment_is_idempotent Example.platform (Some (JStr "abcdefghijk"))
           (JObj [("title", JStr "Intro"); ("timestamp", JNum 0)]) _ eq_refl).
Defined.

(* --------------------------------------------------------------------- *)
(** ** The exported document, further *)

Lemma sanitized_every (s : string) :
  Notions.every Notions.name_char (replace_all (fun c => negb (is_alnum c)) "_" s) = true.
Proof.
  induction s as [| c t IH]; simpl; [reflexivity |].
  destruct (is_alnum c) eqn:Hc; simpl; [| exact IH].
  unfold Notions.name_char at 1. rewrite Hc. exact IH.
Qed.

Lemma sanitized_twice (s : string) :
  replace_all (fun c => negb (is_alnum c)) "_"
    (replace_all (fun c => negb (is_alnum c)) "_" s) =
  replace_all (fun c => negb (is_alnum c)) "_" s.
Proof.
  induction s as [| c t IH]; simpl; [reflexivity |].
  destruct (is_alnum c) eqn:Hc; simpl; [rewrite Hc |]; simpl; rewrite IH; reflexivity.
Qed.

(** X15.  The name given to the document is made of letters, digits,
    underscores and the dot of its extension only (no separator of paths,
    no space), it is 10 code units longer than the title, hence never
    empty, and it only depends on the title up to its non-alphanumeric
    code units: a title and its sanitized form get the same name. *)
Theorem pdf_name_is_safe (title : string) :
  Notions.every Notions.name_char (App.pdf_name title) = true /\
  String.length (App.pdf_name title) = (String.length title + 10)%nat /\
  App.pdf_name (replace_all (fun c => negb (is_alnum c)) "_" title) = App.pdf_name title.
Proof.
  unfold App.pdf_name. split; [| split].
  - rewrite every_append, sanitized_every. reflexivity.
  - rewrite length_append, replace_all_underscore_length. reflexivity.
  - rewrite sanitized_twice. reflexivity.
Qed.

(** The metadata of a guide are the fields of the answer of the server. *)
Lemma handleProcess_guide_fields (P : Platform) (R : App.Remote) (url : string)
      (isManual : bool) (manualScript : string) (st : App.State) (g : App.GuideData) :
  truthy_string url = true ->
  App.guide (App.handleProcess P R url isManual manualScript st) = Some g ->
  exists data : value,
    App.api_process R (App.request url isManual manualScript) =
      FetchResponds true (Some data) /\
    App.title g = field data "title" /\
    App.author g = field data "author" /\
    App.thumbnail g = field data "thumbnail" /\
    App.videoId g = field data "videoId".
Proof.
  intros Hu. unfold App.handleProcess, App.generate. rewrite Hu. simpl negb. cbv iota.
  destruct (App.api_process R (App.request url isManual manualScript))
    as [| ok [data |]] eqn:Hapi;
    run_state;
    try discriminate.
  destruct ok; cbn.
  - destruct data; cbn; try discriminate;
      (destruct (App.prompt P _) as [contents |]; cbn; [| discriminate];
       destruct (App.generateContent R _) as [| text]; cbn; [discriminate |];
       destruct (JSON_parse P (App.text_or_default text)) as [result |]; cbn;
         [| discriminate];
       destruct (App.stepsWithImages P _ result); cbn; [| discriminate];
       intros H; inversion H; subst; eexists; repeat split; reflexivity).
  - destruct (prop data "error"); cbn; try discriminate;
      destruct (ToString P _); cbn; discriminate.
Qed.

(** X16.  When the metadata request fails, every guide that comes out of
    the pipeline is exported under the name [YouTube_Video_Guide.pdf], on a
    page half as wide and half as high as the picture taken. *)
Theorem default_title_names_the_document (P : Platform) (w : Server.World)
        (ai : string -> App.AIOutcome) (url : string) (isManual : bool)
        (manualScript : string) (st : App.State) (id : string) (g : App.GuideData)
        (width height : Q) :
  Spec.resolved P (App.request url isManual manualScript) = Some id ->
  Spec.metadata_failed (Server.fetch w (Server.oembedUrl id)) = true ->
  App.guide (App.handleProcess P (Pipeline.remote P w ai) url isManual manualScript st)
    = Some g ->
  App.downloadPdf true (Some g) (Some (width, height)) =
  App.Saved (App.mkDocument ((width / 2)%Q, (height / 2)%Q) "YouTube_Video_Guide.pdf").
Proof.
  intros Hr Hfail Hg.
  set (req := App.request url isManual manualScript) in *.
  assert (Hu : truthy_string url = true).
  { apply resolved_not_missing in Hr. unfold Spec.url_missing, req in Hr. simpl in Hr.
    apply negb_false_iff. exact Hr. }
  destruct (handleProcess_guide_fields P _ url isManual manualScript st g Hu Hg)
    as (data & Hdata & Htitle & _).
  cbn [App.api_process Pipeline.remote] in Hdata. fold req in Hdata.
  unfold Pipeline.observe in Hdata. injection Hdata as Hok Hjson.
  assert (Hans := proj1 (api_process_answer P w req id Hr)). cbv zeta in Hans.
  remember (snd (Server.run w (Server.getVideoInfo id))) as meta eqn:Hmeta.
  rewrite (getVideoInfo_failed w id Hfail) in Hmeta. subst meta.
  rewrite Hans in Hok, Hjson.
  destruct (snd (Server.run w (Server.getTranscript P id (Server.manualTranscript req))));
    [discriminate |].
  subst data. cbn in Htitle.
  unfold App.downloadPdf. rewrite Htitle. reflexivity.
Qed.

Lemma default_title_names_the_document_witness :
  let st := App.handleProcess Example.platform
              (Pipeline.remote Example.platform Scenario.english Scenario.one_step)
              "https://youtu.be/abcdefghijk" false "" App.initial in
  exists g : App.GuideData,
    App.guide st = Some g /\
    App.downloadPdf true (Some g) (Some (1600, 5000)%Q) =
    App.Saved (App.mkDocument ((1600 / 2)%Q, (5000 / 2)%Q) "YouTube_Video_Guide.pdf").
Proof.
  eexists. split; [reflexivity |].
  exact (default_title_names_the_document Example.platform Scenario.english
           Scenario.one_step "https://youtu.be/abcdefghijk" false "" App.initial
           "abcdefghijk" _ 1600 5000 eq_refl eq_refl eq_refl).
Defined.

(* --------------------------------------------------------------------- *)
(** ** The time shown beside a step *)

Lemma read_decimal_of (n : Z) : Notions.read_decimal (Notions.decimal_of n) = Some n.
Proof.
  unfold Notions.read_decimal, Notions.decimal_of.
  rewrite NilZero.isi.
  - simpl. rewrite DecimalZ.of_to. reflexivity.
  - destruct n; simpl; try discriminate.
    intros H. injection H as H. exact (Unsigned.to_uint_nonnil _ H).
  - destruct n; simpl; try discriminate.
    intros H. injection H as H. exact (Unsigned.to_uint_nonnil _ H).
Qed.

(** The example platform writes integers in decimal. *)
Lemma example_platform_writes_integers : Notions.writes_integers Example.platform.
Proof.
  intros x n Hx _. cbn [Number_toString Example.platform].
  unfold Example.number_toString, Example.digits_of, Notions.decimal_of.
  unfold Qeq in Hx. simpl in Hx. rewrite Z.mul_1_r in Hx.
  rewrite Hx, Z.mod_mul, Z.div_mul by discriminate. reflexivity.
Qed.

Lemma seconds_checked :
  forallb (fun k : nat =>
             let s := Render.padStart 2 "0" (Notions.decimal_of (Z.of_nat k)) in
             Nat.eqb (String.length s) 2 &&
             match Notions.read_decimal s with
             | Some z => Z.eqb z (Z.of_nat k)
             | None => false
             end) (seq 0 60) = true.
Proof. vm_compute. reflexivity. Qed.

(** Below 60 the padded seconds are two digits that read back. *)
Lemma seconds_two_digits (s : Z) :
  0 <= s < 60 ->
  String.length (Render.padStart 2 "0" (Notions.decimal_of s)) = 2%nat /\
  Notions.read_decimal (Render.padStart 2 "0" (Notions.decimal_of s)) = Some s.
Proof.
  intros Hs.
  assert (Hin : In (Z.to_nat s) (seq 0 60)) by (apply in_seq; lia).
  pose proof (proj1 (forallb_forall _ _) seconds_checked _ Hin) as H.
  cbv beta zeta in H. rewrite Z2Nat.id in H by lia.
  apply andb_true_iff in H. destruct H as [H1 H2].
  apply Nat.eqb_eq in H1. split; [exact H1 |].
  destruct (Notions.read_decimal (Render.padStart 2 "0" (Notions.decimal_of s)));
    [| discriminate].
  apply Z.eqb_eq in H2. subst. reflexivity.
Qed.

Lemma floor_of_minutes (t : Z) :
  (Math_floor (inject_Z t / 60) == inject_Z (t / 60))%Q.
Proof.
  unfold Math_floor, Qdiv, Qmult, Qinv, Qfloor, inject_Z. cbn.
  rewrite Z.mul_1_r. reflexivity.
Qed.

Lemma remainder_of_seconds (t : Z) :
  0 <= t -> (Render.remainder (inject_Z t) 60 == inject_Z (t mod 60))%Q.
Proof.
  intros Ht. unfold Render.remainder, Spec.truncate, Qdiv, Qmult, Qinv, Qminus, Qplus,
    Qopp, Qeq, inject_Z. cbn -[Z.mul Z.quot Z.modulo Z.add Z.opp].
  rewrite Z.quot_div_nonneg by lia. rewrite !Z.mul_1_r.
  rewrite (Z.mod_eq t 60) by lia. lia.
Qed.

(** X17.  On a platform that writes integers in decimal, the time shown for
    a timestamp that is a non-negative integer [t] of seconds is the
    minutes [t / 60] in decimal (not folded into hours), a colon, and the
    seconds [t mod 60] on exactly two digits. *)
Theorem time_badge_minutes_seconds (P : Platform) (t : Z) :
  Notions.writes_integers P ->
  0 <= t < 2 ^ 53 ->
  exists m s : string,
    Render.time_badge P (inject_Z t) = m ++ ":" ++ s /\
    Notions.read_decimal m = Some (t / 60) /\
    String.length s = 2%nat /\
    Notions.read_decimal s = Some (t mod 60).
Proof.
  intros HP Ht. change (2 ^ 53) with 9007199254740992 in Ht.
  assert (H53 : 2 ^ 53 = 9007199254740992) by reflexivity.
  unfold Render.time_badge.
  rewrite (HP _ (t / 60) (floor_of_minutes t))
    by (rewrite H53; Z.div_mod_to_equations; lia).
  rewrite (HP _ (t mod 60) (remainder_of_seconds t (proj1 Ht)))
    by (rewrite H53; Z.div_mod_to_equations; lia).
  destruct (seconds_two_digits (t mod 60)) as [H1 H2];
    [Z.div_mod_to_equations; lia |].
  eexists. eexists. split; [reflexivity |]. split; [apply read_decimal_of |].
  split; assumption.
Qed.

Lemma time_badge_minutes_seconds_witness :
  Render.time_badge Example.platform (inject_Z 3725) = "62:05" /\
  exists m s : string,
    Render.time_badge Example.platform (inject_Z 3725) = m ++ ":" ++ s /\
    Notions.read_decimal m = Some 62 /\
    String.length s = 2%nat /\
    Notions.read_decimal s = Some 5.
Proof.
  split; [reflexivity |].
  refine (time_badge_minutes_seconds Example.platform 3725
            example_platform_writes_integers _).
  vm_compute. split; [discriminate | reflexivity].
Defined.

(* --------------------------------------------------------------------- *)
(** ** The form and the server *)

(** X18.  In the manual mode, a submit through the enabled button never
    makes the server call the scraper, and an answer 200 carries the script
    of the form as its transcript. *)
Theorem enabled_manual_submit_never_scrapes (P : Platform) (w : Server.World)
        (f : Render.Form) :
  Render.isManual f = true ->
  Render.submit_disabled f = false ->
  let out := Server.run w
               (Server.api_process P
                  (App.request (Render.url f) (Render.isManual f) (Render.manualScript f))) in
  Server.caption_calls (fst out) = [] /\
  forall info : Server.VideoInfo,
    snd out = Server.mkResponse 200 (Server.VideoBody info) ->
    Server.transcript info = Render.manualScript f.
Proof.
  intros Hm Hd out. subst out. unfold Render.submit_disabled in Hd. rewrite Hm in Hd.
  apply orb_false_iff in Hd. destruct Hd as [Hu Hs].
  apply negb_false_iff in Hu, Hs. unfold App.request. rewrite Hm.
  set (req := Server.mkRequest (Some (Render.url f)) (Some (Render.manualScript f))).
  destruct (Spec.resolved P req) as [id |] eqn:Hr.
  - destruct (api_process_answer P w req id Hr) as [H1 H2]. rewrite H1, H2.
    cbn [Server.manualTranscript req].
    rewrite (getTranscript_manual P w id (Render.manualScript f) Hs).
    split; [reflexivity |]. cbn [snd]. intros info H. injection H as <-. reflexivity.
  - assert (Hmiss : Spec.url_missing req = false).
    { unfold Spec.url_missing, req. simpl. rewrite Hu. reflexivity. }
    rewrite (api_process_unresolved P w req Hmiss Hr).
    split; [reflexivity |]. discriminate.
Qed.

Lemma enabled_manual_submit_never_scrapes_witness :
  let f := Render.mkForm "https://youtu.be/abcdefghijk" "[0s] Intro" true in
  Render.submit_disabled f = false /\
  Server.caption_calls
    (fst (Server.run Scenario.english
            (Server.api_process Example.platform
               (App.request (Render.url f) (Render.isManual f) (Render.manualScript f)))))
  = [].
Proof.
  split; [reflexivity |].
  exact (proj1 (enabled_manual_submit_never_scrapes Example.platform Scenario.english
                  (Render.mkForm "https://youtu.be/abcdefghijk" "[0s] Intro" true)
                  eq_refl eq_refl)).
Defined.

(* --------------------------------------------------------------------- *)
(** ** The lines of the transcript *)

Lemma split_join (lines : list string) :
  lines <> [] ->
  Forall (fun l => Notions.every (fun c => negb (Ascii.eqb c "010")) l = true) lines ->
  split "010" (join newline lines) = lines.
Proof.
  intros Hne H. induction H as [| l rest Hl Hrest IH]; [congruence |].
  destruct rest as [| l' rest'].
  - simpl. apply split_single. exact Hl.
  - change (join newline (l :: l' :: rest'))
      with (l ++ String "010" (join newline (l' :: rest'))).
    rewrite (split_segment _ _ _ Hl), IH by discriminate. reflexivity.
Qed.

(** X19.  When no line made from a caption holds a newline, the transcript
    of a result that is not empty splits back, at its newlines, into
    exactly one line for each caption, in order.  (A caption whose text
    holds a newline spreads over several lines, and an empty result gives
    the empty transcript.) *)
Theorem transcript_has_one_line_per_caption (P : Platform)
        (items : list Server.CaptionItem) :
  items <> [] ->
  Forall (fun item =>
            Notions.every (fun c => negb (Ascii.eqb c "010"))
                          (Server.transcript_line P item) = true) items ->
  split "010" (Server.format_transcript P items) = map (Server.transcript_line P) items /\
  List.length (split "010" (Server.format_transcript P items)) = List.length items.
Proof.
  intros Hne H.
  assert (Hs : split "010" (Server.format_transcript P items) =
               map (Server.transcript_line P) items).
  { unfold Server.format_transcript. apply split_join.
    - destruct items; [congruence | discriminate].
    - apply Forall_map. exact H. }
  split; [exact Hs |]. rewrite Hs. apply length_map.
Qed.

Lemma transcript_has_one_line_per_caption_witness :
  split "010" (Server.format_transcript Example.platform Scenario.captions) =
  ["[0s] Intro"; "[30s] Step one"].
Proof.
  refine (proj1 (transcript_has_one_line_per_caption Example.platform Scenario.captions _ _)).
  - discriminate.
  - repeat constructor.
Defined.

(* --------------------------------------------------------------------- *)
(** ** What the fallback never accepts *)

Lemma rmatch_lit (R : Type) (l : string) :
  forall (s : string) (caps : captures) (k : string -> captures -> option R) (x : R),
    rmatch (lit l) s caps k = Some x ->
    exists s' : string, s = l ++ s' /\ k s' caps = Some x.
Proof.
  induction l as [| c l IH]; intros s caps k x H.
  - exists s. auto.
  - simpl in H. destruct s as [| d t]; [discriminate |].
    destruct (Ascii.eqb_spec c d) as [-> | _]; [| discriminate].
    apply IH in H. destruct H as (s' & -> & H). exists s'. auto.
Qed.

Lemma rmatch_alt (R : Type) (r1 r2 : regex) (s : string) (caps : captures)
      (k : string -> captures -> option R) (x : R) :
  rmatch (Alt r1 r2) s caps k = Some x ->
  rmatch r1 s caps k = Some x \/ rmatch r2 s caps k = Some x.
Proof.
  simpl. destruct (rmatch r1 s caps k); intros H; [left | right]; exact H.
Qed.

Lemma rmatch_cls (R : Type) (p : ascii -> bool) (s : string) (caps : captures)
      (k : string -> captures -> option R) :
  rmatch (Cls p) s caps k =
  match s with
  | String d t => if p d then k t caps else None
  | EmptyString => None
  end.
Proof. reflexivity. Qed.

(** A text matched by a literal that holds a slash or a question mark holds
    one too. *)
Lemma marker_in_literal (R : Type) (n : nat) (l : string) (s : string) (caps : captures)
      (k : string -> captures -> option R) (x : R) :
  Notions.every (fun c => negb (Ascii.eqb c "/" || Ascii.eqb c "?")) l = false ->
  rmatch (Grp n (lit l)) s caps k = Some x ->
  Notions.every (fun c => negb (Ascii.eqb c "/" || Ascii.eqb c "?")) s = false.
Proof.
  intros Hl H. rewrite rmatch_grp in H. apply rmatch_lit in H.
  destruct H as (s' & -> & _). rewrite every_append, Hl. reflexivity.
Qed.

(** X20.  The fallback never accepts a text without slash and without
    question mark: each of its five markers holds one of the two.  Such a
    text, when [new URL] rejects it, is answered 400 without any remote
    call. *)
Theorem fallback_needs_a_marker (P : Platform) (url : string) :
  Notions.every (fun c => negb (Ascii.eqb c "/" || Ascii.eqb c "?")) url = true ->
  Server.extractVideoId_fallback url = None /\
  (URL_new P url = None ->
   forall (w : Server.World) (manual : option string),
     fst (Server.run w (Server.api_process P (Server.mkRequest (Some url) manual))) = [] /\
     Server.status
       (snd (Server.run w (Server.api_process P (Server.mkRequest (Some url) manual)))) = 400).
Proof.
  intros Hurl.
  assert (Hf : Server.extractVideoId_fallback url = None).
  { unfold Server.extractVideoId_fallback.
    destruct (regex_match Server.regExp url) as [caps |] eqn:Hm; [| reflexivity].
    exfalso. unfold regex_match, Server.regExp in Hm.
    rewrite rmatch_seq in Hm. apply match_star_split in Hm.
    destruct Hm as (a0 & s0 & -> & _ & Hm).
    rewrite every_append in Hurl. apply andb_true_iff in Hurl. destruct Hurl as [_ Hs0].
    rewrite rmatch_seq, rmatch_grp in Hm.
    assert (Hbad : Notions.every (fun c => negb (Ascii.eqb c "/" || Ascii.eqb c "?")) s0
                   = false).
    { apply rmatch_alt in Hm. destruct Hm as [Hm | Hm].
      - rewrite rmatch_grp, rmatch_seq in Hm. apply rmatch_lit in Hm.
        destruct Hm as (s1 & -> & Hm). rewrite rmatch_seq, rmatch_cls in Hm.
        destruct s1 as [| d s2]; [discriminate |].
        destruct (is_dot d); [| discriminate].
        apply rmatch_lit in Hm. destruct Hm as (s3 & -> & _).
        rewrite every_append. simpl. apply andb_false_r.
      - apply rmatch_alt in Hm. destruct Hm as [Hm | Hm];
          [eapply marker_in_literal; [| exact Hm]; reflexivity |].
        apply rmatch_alt in Hm. destruct Hm as [Hm | Hm].
        + rewrite rmatch_grp, rmatch_seq in Hm. apply rmatch_lit in Hm.
          destruct Hm as (s1 & -> & _). rewrite every_append. reflexivity.
        + apply rmatch_alt in Hm. destruct Hm as [Hm | Hm];
            (eapply marker_in_literal; [| exact Hm]; reflexivity). }
    congruence. }
  split; [exact Hf |]. intros Hnew w manual.
  unfold Server.api_process, Server.extractVideoId. cbn [Server.url].
  rewrite Hnew, Hf. destruct (truthy_string url); split; reflexivity.
Qed.

Lemma fallback_needs_a_marker_witness :
  URL_new Example.platform "not a url" = None /\
  fst (Server.run Scenario.english
         (Server.api_process Example.platform
            (Server.mkRequest (Some "not a url") None))) = [].
Proof.
  split; [reflexivity |].
  exact (proj1 (proj2 (fallback_needs_a_marker Example.platform "not a url" eq_refl)
                  eq_refl Scenario.english None)).
Defined.

(* --------------------------------------------------------------------- *)
(** ** From the URL to the links of the guide *)

(** The steps of a guide are the enriched steps of some parsed answer. *)
Lemma handleProcess_guide_steps (P : Platform) (R : App.Remote) (url : string)
      (isManual : bool) (manualScript : string) (st : App.State) (g : App.GuideData) :
  truthy_string url = true ->
  App.guide (App.handleProcess P R url isManual manualScript st) = Some g ->
  exists (data : value) (xs : list value),
    App.api_process R (App.request url isManual manualScript) =
      FetchResponds true (Some data) /\
    App.videoId g = field data "videoId" /\
    App.enrich_all P (field data "videoId") xs = Some (App.steps g).
Proof.
  intros Hu. unfold App.handleProcess, App.generate. rewrite Hu. simpl negb. cbv iota.
  destruct (App.api_process R (App.request url isManual manualScript))
    as [| ok [data |]] eqn:Hapi;
    run_state;
    try discriminate.
  destruct ok; cbn.
  - destruct data; cbn; try discriminate;
      (destruct (App.prompt P _) as [contents |]; cbn; [| discriminate];
       destruct (App.generateContent R _) as [| text]; cbn; [discriminate |];
       destruct (JSON_parse P (App.text_or_default text)) as [result |]; cbn;
         [| discriminate];
       destruct (App.stepsWithImages P _ result) as [out |] eqn:Hout; cbn;
         [| discriminate];
       intros H; inversion H; subst; cbn [App.videoId App.steps];
       unfold App.stepsWithImages in Hout;
       destruct (prop result "steps") as [| | [| | | | ys |]]; try discriminate;
       eexists; exists ys; repeat split; try reflexivity; exact Hout).
  - destruct (prop data "error"); cbn; try discriminate;
      destruct (ToString P _); cbn; discriminate.
Qed.

(** X21.  In every guide that the pipeline produces, the identifier is the
    one the server resolved from the URL, and each step carries the
    thumbnail of that identifier as [imageUrl] and, as [videoUrl], the
    address of that video followed by [&t=], a text and [s]. *)
Theorem guide_links_use_the_resolved_identifier (P : Platform) (w : Server.World)
        (ai : string -> App.AIOutcome) (url : string) (isManual : bool)
        (manualScript : string) (st : App.State) (id : string) (g : App.GuideData) :
  Spec.resolved P (App.request url isManual manualScript) = Some id ->
  App.guide (App.handleProcess P (Pipeline.remote P w ai) url isManual manualScript st)
    = Some g ->
  App.videoId g = Some (JStr id) /\
  forall s : App.Step,
    In s (App.steps g) ->
    lookup "imageUrl" s =
      Some (JStr ("https://img.youtube.com/vi/" ++ id ++ "/hqdefault.jpg")) /\
    exists t : string,
      lookup "videoUrl" s =
        Some (JStr ("https://www.youtube.com/watch?v=" ++ id ++ "&t=" ++ t ++ "s")).
Proof.
  intros Hr Hg.
  set (req := App.request url isManual manualScript) in *.
  assert (Hu : truthy_string url = true).
  { apply resolved_not_missing in Hr. unfold Spec.url_missing, req in Hr. simpl in Hr.
    apply negb_false_iff. exact Hr. }
  destruct (handleProcess_guide_steps P _ url isManual manualScript st g Hu Hg)
    as (data & xs & Hdata & Hvid & Hsteps).
  cbn [App.api_process Pipeline.remote] in Hdata. fold req in Hdata.
  unfold Pipeline.observe in Hdata. injection Hdata as Hok Hjson.
  assert (Hans := proj1 (api_process_answer P w req id Hr)). cbv zeta in Hans.
  remember (snd (Server.run w (Server.getVideoInfo id))) as meta eqn:Hmeta. clear Hmeta.
  rewrite Hans in Hok, Hjson.
  destruct (snd (Server.run w (Server.getTranscript P id (Server.manualTranscript req))))
    as [message | fullTranscript]; [discriminate |].
  subst data. cbn in Hvid, Hsteps. split; [exact Hvid |].
  intros s Hin. apply In_nth_error in Hin. destruct Hin as [i Hi].
  destruct (enrich_all_nth P _ xs _ Hsteps) as [Hlen Hnth].
  assert (Hlt : (i < List.length xs)%nat).
  { rewrite <- Hlen. apply nth_error_Some. congruence. }
  destruct (nth_error xs i) as [x |] eqn:Hx;
    [| apply nth_error_None in Hx; lia].
  destruct (Hnth i x Hx) as (s' & Hs' & He).
  assert (s' = s) by congruence. subst s'.
  destruct (enrich_links P _ x s id He eq_refl) as (_ & t & _ & _ & H1 & H2 & _).
  split; [exact H1 |]. exists t. exact H2.
Qed.

Lemma guide_links_use_the_resolved_identifier_witness :
  let st := App.handleProcess Example.platform
              (Pipeline.remote Example.platform Scenario.english Scenario.one_step)
              "https://www.youtube.com/watch?v=abcdefghijk" true "[0s] Intro"
              App.initial in
  exists g : App.GuideData,
    App.guide st = Some g /\ App.videoId g = Some (JStr "abcdefghijk").
Proof.
  eexists. split; [reflexivity |].
  exact (proj1 (guide_links_use_the_resolved_identifier Example.platform Scenario.english
                  Scenario.one_step "https://www.youtube.com/watch?v=abcdefghijk"
                  true "[0s] Intro" App.initial "abcdefghijk" _ eq_refl eq_refl)).
Defined.
